(** * Posture Guardian: posture evaluation and alert debouncing

    A shallow embedding of [posture_guardian.py] (class [PostureGuardian]):
    the geometry helpers, the signature computation [check_posture], the
    calibration flags, the per-frame evaluation of [process_frame] and the
    cooldown gate of [show_alert].  [check_posture] is modelled twice: on
    the typed landmark lists the detector delivers, which the rest of the
    development uses, and on arbitrary Python values, to follow what its
    [try] body raises and its bare [except] catches; the two agree on
    landmark lists.

    Numbers.  Python [int]s are [Z].  Python [float]s (landmark coordinates,
    angles, clock readings) are read as the exact rationals they denote, in
    [Q], and the arithmetic on them is exact: rounding is not modelled.
    [math.pi] and the literal [0.05] are the doubles Python uses, written as
    fractions.  [math.atan2] is a library function: the geometry is parametric
    in it, and the one fact used about it is its range. *)

From Stdlib Require Import ZArith QArith Qabs List String Bool Lia Lqa.
Import ListNotations.

Local Open Scope Q_scope.

(** ** Python numbers *)

(** [a < b] and [a > b] on floats, as booleans. *)
Definition Qltb (a b : Q) : bool := negb (Qle_bool b a).
Definition Qgtb (a b : Q) : bool := Qltb b a.

(** [int(value)] on a float: truncation toward zero. *)
Definition int (value : Q) : Z := Z.quot (Qnum value) (Zpos (Qden value)).

(** [math.pi], the double 3.141592653589793. *)
Definition math_pi : Q := 884279719003555 # 281474976710656.

(** The double denoted by the literal [0.05]. *)
Definition margin_0_05 : Q := 3602879701896397 # 72057594037927936.

(** ** Landmarks *)

(** A landmark as the code reads it: the attributes [.x] and [.y]. *)
Record landmark : Type := Landmark { x : Q; y : Q }.

(** [mp_pose.PoseLandmark.<NAME>.value]: MediaPipe's indices of the six
    landmarks the code reads. *)
Module PoseLandmark.
Definition LEFT_EAR : nat := 7.
Definition RIGHT_EAR : nat := 8.
Definition LEFT_SHOULDER : nat := 11.
Definition RIGHT_SHOULDER : nat := 12.
Definition LEFT_HIP : nat := 23.
Definition RIGHT_HIP : nat := 24.
End PoseLandmark.

(** ** Exceptions inside [try] *)

Inductive py_exn : Type :=
| IndexError
| KeyError
| TypeError
| AttributeError
| ZeroDivisionError.

Inductive py_result (A : Type) : Type :=
| Returned (a : A)
| Raised (e : py_exn).
Arguments Returned {A} a.
Arguments Raised {A} e.

Definition py_bind {A B : Type} (c : py_result A) (k : A -> py_result B)
  : py_result B :=
  match c with
  | Returned a => k a
  | Raised e => Raised e
  end.

Notation "v <- c ;; k" := (py_bind c (fun v => k))
  (at level 61, c at next level, right associativity).

(** [landmarks[i]]: out of range raises [IndexError]. *)
Definition getitem (landmarks : list landmark) (i : nat) : py_result landmark :=
  match nth_error landmarks i with
  | Some p => Returned p
  | None => Raised IndexError
  end.

(** [try: body  except: return None], the bare [except] catching whatever
    the body raises. *)
Definition try_except_none {A : Type} (body : py_result A) : option A :=
  match body with
  | Returned a => Some a
  | Raised _ => None
  end.

(** ** The posture signature: the dict [check_posture] returns *)

Record signature : Type := Signature {
  shoulder_slope : Q;
  neck_angle : Q;
  head_forward : bool
}.

Section Geometry.

(** [math.atan2 y x], in radians. *)
Variable atan2 : Q -> Q -> Q.

(** [calculate_angle(p1, p2, p3)] *)
Definition calculate_angle (p1 p2 p3 : landmark) : Q :=
  let radians := atan2 (y p3 - y p2) (x p3 - x p2)
                 - atan2 (y p1 - y p2) (x p1 - x p2) in
  let angle := Qabs (radians * 180 / math_pi) in
  if Qgtb angle 180 then 360 - angle else angle.

(** The body of the [try] in [check_posture]. *)
Definition check_posture_body (landmarks : list landmark)
  : py_result signature :=
  left_shoulder <- getitem landmarks PoseLandmark.LEFT_SHOULDER ;;
  right_shoulder <- getitem landmarks PoseLandmark.RIGHT_SHOULDER ;;
  left_ear <- getitem landmarks PoseLandmark.LEFT_EAR ;;
  right_ear <- getitem landmarks PoseLandmark.RIGHT_EAR ;;
  left_hip <- getitem landmarks PoseLandmark.LEFT_HIP ;;
  right_hip <- getitem landmarks PoseLandmark.RIGHT_HIP ;;
  let shoulder_slope :=
    Qabs (atan2 (y right_shoulder - y left_shoulder)
                (x right_shoulder - x left_shoulder) * 180 / math_pi) in
  let avg_ear :=
    Landmark ((x left_ear + x right_ear) / 2)
             ((y left_ear + y right_ear) / 2) in
  let avg_shoulder :=
    Landmark ((x left_shoulder + x right_shoulder) / 2)
             ((y left_shoulder + y right_shoulder) / 2) in
  let avg_hip :=
    Landmark ((x left_hip + x right_hip) / 2)
             ((y left_hip + y right_hip) / 2) in
  let neck_angle := calculate_angle avg_hip avg_shoulder avg_ear in
  let head_forward := Qgtb (x avg_ear) (x avg_shoulder + margin_0_05) in
  Returned (Signature shoulder_slope neck_angle head_forward).

(** [check_posture(landmarks)]: the dict, or [None]. *)
Definition check_posture (landmarks : list landmark) : option signature :=
  try_except_none (check_posture_body landmarks).

End Geometry.

(** ** The object state *)

(** The fields of [PostureGuardian] that the evaluation reads or writes.
    [good_posture] is [None] or the calibrated dict. *)
Record state : Type := State {
  good_posture : option signature;
  bad_posture_counter : Z;
  sensitivity : Z;
  alert_duration : Z;
  last_alert_time : Q;
  monitoring : bool;
  calibrating : bool
}.

(** [__init__] *)
Definition init : state :=
  {| good_posture := None;
     bad_posture_counter := 0;
     sensitivity := 8;
     alert_duration := 3;
     last_alert_time := 0;
     monitoring := false;
     calibrating := false |}.

Definition set_good_posture (v : option signature) (s : state) : state :=
  State v (bad_posture_counter s) (sensitivity s) (alert_duration s)
        (last_alert_time s) (monitoring s) (calibrating s).

Definition set_bad_posture_counter (v : Z) (s : state) : state :=
  State (good_posture s) v (sensitivity s) (alert_duration s)
        (last_alert_time s) (monitoring s) (calibrating s).

Definition set_sensitivity (v : Z) (s : state) : state :=
  State (good_posture s) (bad_posture_counter s) v (alert_duration s)
        (last_alert_time s) (monitoring s) (calibrating s).

Definition set_alert_duration (v : Z) (s : state) : state :=
  State (good_posture s) (bad_posture_counter s) (sensitivity s) v
        (last_alert_time s) (monitoring s) (calibrating s).

Definition set_last_alert_time (v : Q) (s : state) : state :=
  State (good_posture s) (bad_posture_counter s) (sensitivity s)
        (alert_duration s) v (monitoring s) (calibrating s).

Definition set_monitoring (v : bool) (s : state) : state :=
  State (good_posture s) (bad_posture_counter s) (sensitivity s)
        (alert_duration s) (last_alert_time s) v (calibrating s).

Definition set_calibrating (v : bool) (s : state) : state :=
  State (good_posture s) (bad_posture_counter s) (sensitivity s)
        (alert_duration s) (last_alert_time s) (monitoring s) v.

(** What a call shows to the user: a status line written through
    [update_status], or the overlay window [show_alert] opens.  (The debug
    [print]s, the video label and the slider labels are left out.) *)
Inductive effect : Type :=
| Status (text color : string)
| AlertOverlay.

(** Truth value of [self.good_posture]: [None] is false, the three-key dict
    is true. *)
Definition truthy {A : Type} (o : option A) : bool :=
  match o with Some _ => true | None => false end.

(** [show_alert()], called when the clock reads [current_time]. *)
Definition show_alert (current_time : Q) (s : state) : state * list effect :=
  if Qltb (current_time - last_alert_time s) (inject_Z (alert_duration s))
  then (s, [])
  else (set_last_alert_time current_time s, [AlertOverlay]).

(** [update_status(text, color)], the status label being in place. *)
Definition update_status (text color : string) : list effect :=
  [Status text color].

(** [calibrate_posture()], up to the start of the timer thread. *)
Definition calibrate_posture (s : state) : state * list effect :=
  let s := set_calibrating true s in
  let s := set_good_posture None s in
  (s, update_status "📸 Sit with good posture... capturing in 3 seconds!"
                    "yellow").

(** [finish_calibration()], what the timer thread does once its three
    seconds of sleep are over. *)
Definition finish_calibration (s : state) : state * list effect :=
  let s := set_calibrating false s in
  if truthy (good_posture s)
  then (set_monitoring true s,
        update_status "✓ Good posture calibrated! Monitoring..." "lightgreen")
  else (s, []).

(** [is_bad_posture], lines 218 to 229 of [process_frame]. *)
Definition is_bad_posture (posture good : signature) (sens : Z) : bool :=
  let shoulder_diff := Qabs (shoulder_slope posture - shoulder_slope good) in
  let neck_diff := Qabs (neck_angle posture - neck_angle good) in
  Qgtb shoulder_diff (inject_Z sens)
  || Qgtb neck_diff (inject_Z sens)
  || (head_forward posture && negb (head_forward good)).

(** What one call of [process_frame] gets from the camera and the pose
    detector. *)
Inductive capture : Type :=
| CameraClosed                                 (* no [cap], or not opened *)
| ReadFailed                                   (* [ret] is false *)
| Frame (pose_landmarks : option (list landmark)).

Section Pipeline.

Variable atan2 : Q -> Q -> Q.

(** [process_frame()]; [current_time] is what [time.time()] returns should
    the call reach [show_alert]. *)
Definition process_frame (current_time : Q) (input : capture) (s : state)
  : state * list effect :=
  match input with
  | CameraClosed => (s, [])
  | ReadFailed => (s, [])
  | Frame None => (s, update_status "👤 No person detected" "white")
  | Frame (Some landmarks) =>
      match check_posture atan2 landmarks with
      | None => (s, [])
      | Some posture =>
          if calibrating s && negb (truthy (good_posture s))
          then (set_good_posture (Some posture) s, [])
          else
            match monitoring s, good_posture s with
            | true, Some good =>
                if is_bad_posture posture good (sensitivity s)
                then
                  let s :=
                    set_bad_posture_counter (bad_posture_counter s + 1) s in
                  if (bad_posture_counter s >? 5)%Z
                  then
                    let (s, shown) := show_alert current_time s in
                    (s, shown ++ update_status "⚠️ Poor posture detected!"
                                               "red")
                  else (s, [])
                else
                  (set_bad_posture_counter 0 s,
                   update_status "✓ Good posture! Keep it up 💚"
                                 "lightgreen")
            | _, _ => (s, [])
            end
      end
  end.

End Pipeline.

(** [update_sensitivity(value)] *)
Definition update_sensitivity (value : Q) (s : state) : state :=
  set_sensitivity (int value) s.

(** [update_duration(value)] *)
Definition update_duration (value : Q) (s : state) : state :=
  set_alert_duration (int value) s.

(** [on_closing()] *)
Definition on_closing (s : state) : state := set_monitoring false s.

(** ** Runs *)

(** The calls that reach the object: the two buttons and sliders of the
    window, the timer thread of a calibration, and the frame ticks. *)
Inductive event : Type :=
| Calibrate
| WindowElapsed
| Tick (current_time : Q) (input : capture)
| SetSensitivity (value : Q)
| SetDuration (value : Q)
| Closing.

Section Runs.

Variable atan2 : Q -> Q -> Q.

Definition step (e : event) (s : state) : state * list effect :=
  match e with
  | Calibrate => calibrate_posture s
  | WindowElapsed => finish_calibration s
  | Tick current_time input => process_frame atan2 current_time input s
  | SetSensitivity value => (update_sensitivity value s, [])
  | SetDuration value => (update_duration value s, [])
  | Closing => (on_closing s, [])
  end.

(** The events in order, one call after the other; the effects are
    collected in the order they happen. *)
Fixpoint run (es : list event) (s : state) : state * list effect :=
  match es with
  | [] => (s, [])
  | e :: es =>
      let (s1, out1) := step e s in
      let (s2, out2) := run es s1 in
      (s2, out1 ++ out2)
  end.

End Runs.

(** Number of overlay alerts among the effects. *)
Definition alerts (out : list effect) : nat :=
  List.length (filter (fun e => match e with AlertOverlay => true | _ => false end) out).

(** The status lines among the effects. *)
Definition statuses (out : list effect) : list (string * string) :=
  flat_map (fun e => match e with Status t c => [(t, c)] | _ => [] end) out.

(** ** A stand-in for [math.atan2] on concrete inputs

    Exact in the eight directions of the axes and diagonals, and the value
    of the quadrant's diagonal elsewhere; it stays within [math_pi] in
    absolute value, as [math.atan2] does. *)
Definition atan2_octant (dy dx : Q) : Q :=
  match Qcompare dx 0, Qcompare dy 0 with
  | Gt, Gt => math_pi / 4
  | Gt, Eq => 0
  | Gt, Lt => - (math_pi / 4)
  | Eq, Gt => math_pi / 2
  | Eq, Eq => 0
  | Eq, Lt => - (math_pi / 2)
  | Lt, Gt => 3 * math_pi / 4
  | Lt, Eq => math_pi
  | Lt, Lt => - (3 * math_pi / 4)
  end.

(** A pose of 33 landmarks described by the three midlines the code
    looks at: ears, shoulders and hips, each pair level and symmetric
    about the given centre. *)
Definition pose (ear_x shoulder_x hip_x : Q) : list landmark :=
  let other := Landmark (1 # 2) (1 # 2) in
  repeat other 7
  ++ [Landmark (ear_x - (1 # 20)) (1 # 5); Landmark (ear_x + (1 # 20)) (1 # 5)]
  ++ repeat other 2
  ++ [Landmark (shoulder_x - (1 # 5)) (2 # 5);
      Landmark (shoulder_x + (1 # 5)) (2 # 5)]
  ++ repeat other 10
  ++ [Landmark (hip_x - (3 # 20)) (4 # 5); Landmark (hip_x + (3 # 20)) (4 # 5)]
  ++ repeat other 8.

(** Sitting upright, and leaning the head forward of the shoulders. *)
Definition upright : list landmark := pose (1 # 2) (1 # 2) (1 # 2).
Definition slouched : list landmark := pose (7 # 10) (1 # 2) (1 # 2).

(** A calibration that caught [upright] at time 100 and went on to
    monitoring. *)
Definition calibrated : state :=
  fst (run atan2_octant
           [Calibrate; Tick 100 (Frame (Some upright)); WindowElapsed] init).

(** [n] frames of one pose, a thirtieth of a second apart, the first at
    [start] thirtieths of a second. *)
Definition frames_of (landmarks : list landmark) (start : Z) (n : nat)
  : list (Q * capture) :=
  map (fun k => ((start + Z.of_nat k) # 30, Frame (Some landmarks))) (seq 0 n).

(** What the frame of a capture gives [check_posture]'s caller: the
    signature, or nothing (no camera, no frame, no landmarks, or a landmark
    list [check_posture] gives up on). *)
Definition signature_of (atan2 : Q -> Q -> Q) (input : capture)
  : option signature :=
  match input with
  | Frame (Some landmarks) => check_posture atan2 landmarks
  | _ => None
  end.

(** The frame of a capture has a signature, and lines 218 to 229 classify it
    [bad] against [good] under the sensitivity [sens]. *)
Definition classified (atan2 : Q -> Q -> Q) (good : signature) (sens : Z)
  (bad : bool) (input : capture) : Prop :=
  exists posture,
    signature_of atan2 input = Some posture
    /\ is_bad_posture posture good sens = bad.

(** Frame ticks, each with the clock reading of its call. *)
Definition ticks (frames : list (Q * capture)) : list event :=
  map (fun f => Tick (fst f) (snd f)) frames.

(** The placement of the overlay in [show_alert], lines 123 to 131: width,
    height and the corner [x], [y] of the window on a screen of the given
    size, as they go into the geometry string.  [//] is floor division. *)
Definition alert_geometry (screen_width screen_height : Z) : Z * Z * Z * Z :=
  let width := 500%Z in
  let height := 200%Z in
  let x := ((screen_width - width) / 2)%Z in
  let y := ((screen_height - height) / 2)%Z in
  (width, height, x, y).

(** A pose whose left and right ears, and left and right hips, have traded
    places with those of [landmarks]. *)
Definition relabelled (landmarks : list landmark) : list landmark :=
  map (fun i =>
         nth (match i with
              | 7 => 8 | 8 => 7 | 23 => 24 | 24 => 23 | _ => i
              end)%nat landmarks (Landmark 0 0))
      (seq 0 (List.length landmarks)).

(** Lines 64 to 93 of [check_posture]: the dict built from the six
    landmarks once they have been read. *)
Definition signature_from (atan2 : Q -> Q -> Q)
  (left_shoulder right_shoulder left_ear right_ear left_hip right_hip
     : landmark) : signature :=
  let shoulder_slope :=
    Qabs (atan2 (y right_shoulder - y left_shoulder)
                (x right_shoulder - x left_shoulder) * 180 / math_pi) in
  let avg_ear :=
    Landmark ((x left_ear + x right_ear) / 2)
             ((y left_ear + y right_ear) / 2) in
  let avg_shoulder :=
    Landmark ((x left_shoulder + x right_shoulder) / 2)
             ((y left_shoulder + y right_shoulder) / 2) in
  let avg_hip :=
    Landmark ((x left_hip + x right_hip) / 2)
             ((y left_hip + y right_hip) / 2) in
  let neck_angle := calculate_angle atan2 avg_hip avg_shoulder avg_ear in
  let head_forward := Qgtb (x avg_ear) (x avg_shoulder + margin_0_05) in
  Signature shoulder_slope neck_angle head_forward.

(** ** [check_posture] on whatever the caller passes

    [landmarks] is an untyped argument.  The values below are the ones a
    caller can build from [None], numbers, strings, lists, dicts with int
    keys and plain objects with attributes; each operation of the [try]
    body raises on them what Python raises. *)
#[warnings="-register-all"]
Inductive py_value : Type :=
| PyNone
| PyNum (q : Q)              (* an int, a bool or a float, by its value *)
| PyStr (s : string)
| PyList (items : list py_value)
| PyDict (items : list (Z * py_value))
| PyObject (attrs : list (string * py_value)).

(** [except <kinds>: return None] around a body: what the clause catches
    becomes [None], the rest goes on to the caller. *)
Definition try_except {A : Type} (catches : py_exn -> bool)
  (body : py_result A) : py_result (option A) :=
  match body with
  | Returned a => Returned (Some a)
  | Raised e => if catches e then Returned None else Raised e
  end.

(** The bare [except:] of line 94 catches every kind. *)
Definition bare_except (e : py_exn) : bool := true.

(** [v[i]] for an index [i] that is not negative. *)
Definition py_getitem (v : py_value) (i : nat) : py_result py_value :=
  match v with
  | PyList items =>
      match nth_error items i with
      | Some item => Returned item
      | None => Raised IndexError
      end
  | PyStr s =>
      match String.get i s with
      | Some c => Returned (PyStr (String c EmptyString))
      | None => Raised IndexError
      end
  | PyDict items =>
      match find (fun kv => Z.eqb (fst kv) (Z.of_nat i)) items with
      | Some kv => Returned (snd kv)
      | None => Raised KeyError
      end
  | PyNone | PyNum _ | PyObject _ => Raised TypeError
  end.

(** [v.x] and [v.y]: the names the code reads, which only a plain object
    can have. *)
Definition py_getattr (v : py_value) (name : string) : py_result py_value :=
  match v with
  | PyObject attrs =>
      match find (fun kv => String.eqb (fst kv) name) attrs with
      | Some kv => Returned (snd kv)
      | None => Raised AttributeError
      end
  | _ => Raised AttributeError
  end.

(** [a - b]: defined on numbers only; the result is a number. *)
Definition py_sub (a b : py_value) : py_result Q :=
  match a, b with
  | PyNum a, PyNum b => Returned (a - b)
  | _, _ => Raised TypeError
  end.

(** [a + b]: numbers add, strings and lists concatenate. *)
Definition py_add (a b : py_value) : py_result py_value :=
  match a, b with
  | PyNum a, PyNum b => Returned (PyNum (a + b))
  | PyStr a, PyStr b => Returned (PyStr (a ++ b))
  | PyList a, PyList b => Returned (PyList (a ++ b))
  | _, _ => Raised TypeError
  end.

(** [a / b] for a number [b]: defined on numbers only; the result is a
    float. *)
Definition py_truediv (a : py_value) (b : Q) : py_result Q :=
  match a with
  | PyNum a =>
      if Qeq_bool b 0 then Raised ZeroDivisionError else Returned (a / b)
  | _ => Raised TypeError
  end.

(** [(left.name + right.name) / 2], the value of a midpoint's attribute. *)
Definition py_midpoint (left right : py_value) (name : string)
  : py_result Q :=
  a <- py_getattr left name ;;
  b <- py_getattr right name ;;
  sum <- py_add a b ;;
  py_truediv sum 2.

Section Untyped.

Variable atan2 : Q -> Q -> Q.

(** The body of the [try] in [check_posture], statement by statement and
    operand by operand in the order Python evaluates them. *)
Definition check_posture_py_body (landmarks : py_value)
  : py_result signature :=
  left_shoulder <- py_getitem landmarks PoseLandmark.LEFT_SHOULDER ;;
  right_shoulder <- py_getitem landmarks PoseLandmark.RIGHT_SHOULDER ;;
  left_ear <- py_getitem landmarks PoseLandmark.LEFT_EAR ;;
  right_ear <- py_getitem landmarks PoseLandmark.RIGHT_EAR ;;
  left_hip <- py_getitem landmarks PoseLandmark.LEFT_HIP ;;
  right_hip <- py_getitem landmarks PoseLandmark.RIGHT_HIP ;;
  right_shoulder_y <- py_getattr right_shoulder "y" ;;
  left_shoulder_y <- py_getattr left_shoulder "y" ;;
  dy <- py_sub right_shoulder_y left_shoulder_y ;;
  right_shoulder_x <- py_getattr right_shoulder "x" ;;
  left_shoulder_x <- py_getattr left_shoulder "x" ;;
  dx <- py_sub right_shoulder_x left_shoulder_x ;;
  let shoulder_slope := Qabs (atan2 dy dx * 180 / math_pi) in
  avg_ear_x <- py_midpoint left_ear right_ear "x" ;;
  avg_ear_y <- py_midpoint left_ear right_ear "y" ;;
  avg_shoulder_x <- py_midpoint left_shoulder right_shoulder "x" ;;
  avg_shoulder_y <- py_midpoint left_shoulder right_shoulder "y" ;;
  avg_hip_x <- py_midpoint left_hip right_hip "x" ;;
  avg_hip_y <- py_midpoint left_hip right_hip "y" ;;
  let avg_ear := Landmark avg_ear_x avg_ear_y in
  let avg_shoulder := Landmark avg_shoulder_x avg_shoulder_y in
  let avg_hip := Landmark avg_hip_x avg_hip_y in
  let neck_angle := calculate_angle atan2 avg_hip avg_shoulder avg_ear in
  let head_forward := Qgtb (x avg_ear) (x avg_shoulder + margin_0_05) in
  Returned (Signature shoulder_slope neck_angle head_forward).

(** [check_posture(landmarks)] on any value: what the call does, returning
    or raising. *)
Definition check_posture_py (landmarks : py_value)
  : py_result (option signature) :=
  try_except bare_except (check_posture_py_body landmarks).

End Untyped.

(** A landmark list of the detector as a Python value: a list of objects
    with the attributes [x] and [y]. *)
Definition py_landmark (p : landmark) : py_value :=
  PyObject [("x"%string, PyNum (x p)); ("y"%string, PyNum (y p))].

Definition py_landmarks (landmarks : list landmark) : py_value :=
  PyList (map py_landmark landmarks).

(** An [except] clause that names [IndexError] alone. *)
Definition except_IndexError (e : py_exn) : bool :=
  match e with IndexError => true | _ => false end.

(** * Properties *)

(** ** Comparisons *)

Lemma Qgtb_true (a b : Q) : Qgtb a b = true <-> b < a.
Proof.
  unfold Qgtb, Qltb. rewrite negb_true_iff. split; intros H.
  - apply Qnot_le_lt. intros C. apply Qle_bool_iff in C. congruence.
  - destruct (Qle_bool a b) eqn:E; auto. apply Qle_bool_iff in E.
    exfalso. exact (Qlt_not_le _ _ H E).
Qed.

Lemma Qgtb_false (a b : Q) : Qgtb a b = false <-> a <= b.
Proof.
  unfold Qgtb, Qltb. rewrite negb_false_iff. apply Qle_bool_iff.
Qed.

Lemma Qltb_true (a b : Q) : Qltb a b = true <-> a < b.
Proof. exact (Qgtb_true b a). Qed.

Lemma Qltb_false (a b : Q) : Qltb a b = false <-> b <= a.
Proof. exact (Qgtb_false b a). Qed.

Lemma math_pi_pos : 0 < math_pi.
Proof. reflexivity. Qed.

(** Radians within [k] times [math_pi] are degrees within [k] times 180. *)
Lemma degrees_bound (a k : Q) :
  Qabs a <= k * math_pi -> Qabs (a * 180 / math_pi) <= k * 180.
Proof.
  intros H. apply Qabs_Qle_condition in H. apply Qabs_Qle_condition.
  destruct H as [Hl Hu]. split.
  - apply Qle_shift_div_l; [exact math_pi_pos|]. unfold math_pi in *. lra.
  - apply Qle_shift_div_r; [exact math_pi_pos|]. unfold math_pi in *. lra.
Qed.

Lemma atan2_octant_range (dy dx : Q) : Qabs (atan2_octant dy dx) <= math_pi.
Proof.
  unfold atan2_octant.
  destruct (Qcompare dx 0), (Qcompare dy 0); vm_compute; discriminate.
Qed.

(** ** Geometry *)

Section GeometryFacts.

Variable atan2 : Q -> Q -> Q.
Hypothesis atan2_range : forall dy dx, Qabs (atan2 dy dx) <= math_pi.

(** C8.  Whatever the three points, [calculate_angle] returns a value in
    the closed interval from 0 to 180, and swapping [p1] and [p3] gives the
    same value.  The one fact about [math.atan2] that the proof uses is
    that its results lie between minus [math.pi] and [math.pi]. *)
Theorem calculate_angle_range_sym (p1 p2 p3 : landmark) :
  (0 <= calculate_angle atan2 p1 p2 p3
   /\ calculate_angle atan2 p1 p2 p3 <= 180)
  /\ calculate_angle atan2 p1 p2 p3 == calculate_angle atan2 p3 p2 p1.
Proof.
  unfold calculate_angle.
  set (a3 := atan2 (y p3 - y p2) (x p3 - x p2)).
  set (a1 := atan2 (y p1 - y p2) (x p1 - x p2)).
  assert (H3 : Qabs a3 <= math_pi) by apply atan2_range.
  assert (H1 : Qabs a1 <= math_pi) by apply atan2_range.
  assert (Hs : Qabs ((a1 - a3) * 180 / math_pi)
               == Qabs ((a3 - a1) * 180 / math_pi)).
  { rewrite <- (Qabs_opp ((a3 - a1) * 180 / math_pi)).
    apply Qabs_wd. field. discriminate. }
  assert (Hb : Qabs ((a3 - a1) * 180 / math_pi) <= 2 * 180).
  { apply degrees_bound. apply Qabs_Qle_condition in H3, H1.
    apply Qabs_Qle_condition. lra. }
  pose proof (Qabs_nonneg ((a3 - a1) * 180 / math_pi)) as Hn.
  split.
  - destruct (Qgtb _ 180) eqn:E.
    + apply Qgtb_true in E. lra.
    + apply Qgtb_false in E. lra.
  - destruct (Qgtb (Qabs ((a3 - a1) * 180 / math_pi)) 180) eqn:E;
      destruct (Qgtb (Qabs ((a1 - a3) * 180 / math_pi)) 180) eqn:E'.
    + rewrite Hs. reflexivity.
    + apply Qgtb_true in E. apply Qgtb_false in E'. lra.
    + apply Qgtb_false in E. apply Qgtb_true in E'. lra.
    + rewrite Hs. reflexivity.
Qed.

End GeometryFacts.

(** The right angle at the origin between the two axes, with the stand-in
    arctangent. *)
Lemma calculate_angle_range_sym_witness :
  (forall dy dx, Qabs (atan2_octant dy dx) <= math_pi)
  /\ (0 <= calculate_angle atan2_octant
             (Landmark 1 0) (Landmark 0 0) (Landmark 0 1)
      /\ calculate_angle atan2_octant
           (Landmark 1 0) (Landmark 0 0) (Landmark 0 1) <= 180)
  /\ calculate_angle atan2_octant (Landmark 1 0) (Landmark 0 0) (Landmark 0 1)
     == calculate_angle atan2_octant
          (Landmark 0 1) (Landmark 0 0) (Landmark 1 0).
Proof.
  split.
  - exact atan2_octant_range.
  - exact (calculate_angle_range_sym atan2_octant atan2_octant_range
             (Landmark 1 0) (Landmark 0 0) (Landmark 0 1)).
Defined.

(** ** Signature computation *)

Lemma getitem_returned (landmarks : list landmark) (i : nat) (p : landmark) :
  getitem landmarks i = Returned p -> (i < List.length landmarks)%nat.
Proof.
  unfold getitem. destruct (nth_error landmarks i) eqn:E; [|discriminate].
  intros _. apply nth_error_Some. congruence.
Qed.

Lemma getitem_raised (landmarks : list landmark) (i : nat) (e : py_exn) :
  getitem landmarks i = Raised e -> (List.length landmarks <= i)%nat.
Proof.
  unfold getitem. destruct (nth_error landmarks i) eqn:E; [discriminate|].
  intros _. apply nth_error_None. exact E.
Qed.

(** On a typed landmark list: either the body of the [try] ran to its
    end, which takes at least 25 landmarks, and the result is the dict it
    built, or the body raised, on a shorter list, and the result is
    [None]. *)
Theorem check_posture_total (atan2 : Q -> Q -> Q) (landmarks : list landmark) :
  (exists sig,
      check_posture_body atan2 landmarks = Returned sig
      /\ check_posture atan2 landmarks = Some sig
      /\ (25 <= List.length landmarks)%nat)
  \/ (exists e,
         check_posture_body atan2 landmarks = Raised e
         /\ check_posture atan2 landmarks = None
         /\ (List.length landmarks < 25)%nat).
Proof.
  unfold check_posture, check_posture_body, PoseLandmark.LEFT_SHOULDER,
    PoseLandmark.RIGHT_SHOULDER, PoseLandmark.LEFT_EAR,
    PoseLandmark.RIGHT_EAR, PoseLandmark.LEFT_HIP, PoseLandmark.RIGHT_HIP.
  destruct (getitem landmarks 11) eqn:E11; cbn [py_bind];
    [|right; eexists; repeat split; apply getitem_raised in E11; lia].
  destruct (getitem landmarks 12) eqn:E12; cbn [py_bind];
    [|right; eexists; repeat split; apply getitem_raised in E12; lia].
  destruct (getitem landmarks 7) eqn:E7; cbn [py_bind];
    [|right; eexists; repeat split; apply getitem_raised in E7; lia].
  destruct (getitem landmarks 8) eqn:E8; cbn [py_bind];
    [|right; eexists; repeat split; apply getitem_raised in E8; lia].
  destruct (getitem landmarks 23) eqn:E23; cbn [py_bind];
    [|right; eexists; repeat split; apply getitem_raised in E23; lia].
  destruct (getitem landmarks 24) eqn:E24; cbn [py_bind];
    [|right; eexists; repeat split; apply getitem_raised in E24; lia].
  left. eexists. repeat split. apply getitem_returned in E24. lia.
Qed.

(** *** Whatever the caller passes *)

Lemma py_getitem_landmarks (landmarks : list landmark) (i : nat) :
  py_getitem (py_landmarks landmarks) i
  = match nth_error landmarks i with
    | Some p => Returned (py_landmark p)
    | None => Raised IndexError
    end.
Proof.
  unfold py_landmarks, py_getitem. rewrite nth_error_map.
  destruct (nth_error landmarks i); reflexivity.
Qed.

(** On a landmark list of the detector the untyped body does what the
    typed one does: the attributes are there and are numbers, and the one
    thing that can go wrong is an index out of range. *)
Lemma check_posture_py_body_landmarks (atan2 : Q -> Q -> Q)
      (landmarks : list landmark) :
  check_posture_py_body atan2 (py_landmarks landmarks)
  = check_posture_body atan2 landmarks.
Proof.
  unfold check_posture_py_body, check_posture_body, getitem.
  rewrite !py_getitem_landmarks.
  destruct (nth_error landmarks PoseLandmark.LEFT_SHOULDER); [|reflexivity].
  destruct (nth_error landmarks PoseLandmark.RIGHT_SHOULDER); [|reflexivity].
  destruct (nth_error landmarks PoseLandmark.LEFT_EAR); [|reflexivity].
  destruct (nth_error landmarks PoseLandmark.RIGHT_EAR); [|reflexivity].
  destruct (nth_error landmarks PoseLandmark.LEFT_HIP); [|reflexivity].
  destruct (nth_error landmarks PoseLandmark.RIGHT_HIP); reflexivity.
Qed.

(** C10.  Whatever value is passed as [landmarks], [check_posture] returns:
    the dict of the three fields when the body of the [try] runs to its
    end, and [None] when the body raises, whatever it raises; the call
    itself never raises.  On a landmark list of the detector the result is
    the one of the typed [check_posture]. *)
Theorem check_posture_never_raises (atan2 : Q -> Q -> Q)
        (landmarks : py_value) :
  (exists result : option signature,
      check_posture_py atan2 landmarks = Returned result)
  /\ match check_posture_py_body atan2 landmarks with
     | Returned sig => check_posture_py atan2 landmarks = Returned (Some sig)
     | Raised _ => check_posture_py atan2 landmarks = Returned None
     end
  /\ (forall detected : list landmark,
         check_posture_py atan2 (py_landmarks detected)
         = Returned (check_posture atan2 detected)).
Proof.
  split; [|split].
  - unfold check_posture_py.
    destruct (check_posture_py_body atan2 landmarks) as [sig|e]; cbn.
    + exists (Some sig). reflexivity.
    + exists None. reflexivity.
  - unfold check_posture_py.
    destruct (check_posture_py_body atan2 landmarks) as [sig|e]; reflexivity.
  - intros detected. unfold check_posture_py, check_posture.
    rewrite check_posture_py_body_landmarks.
    destruct (check_posture_body atan2 detected); reflexivity.
Qed.

(** The kinds of exception the body raises, each turned into [None]: an
    index out of range, a value that cannot be indexed, a missing key, a
    landmark without coordinates, coordinates that are not numbers at the
    subtraction, and at the division of a midpoint. *)
Example check_posture_py_body_raises (atan2 : Q -> Q -> Q) :
  let strings := PyObject [("x", PyStr "a"); ("y", PyStr "b")]%string in
  let point := py_landmark (Landmark (1 # 2) (1 # 2)) in
  let inputs :=
    [PyList (repeat point 24); PyNone; PyDict [(11%Z, point)];
     PyList (repeat PyNone 33); PyList (repeat strings 33);
     PyList (repeat point 7 ++ repeat strings 2 ++ repeat point 24)] in
  map (check_posture_py_body atan2) inputs
  = [Raised IndexError; Raised TypeError; Raised KeyError;
     Raised AttributeError; Raised TypeError; Raised TypeError]
  /\ map (check_posture_py atan2) inputs = repeat (Returned None) 6.
Proof. split; reflexivity. Qed.

(** With a clause for [IndexError] alone the other kinds would reach the
    caller: the result above rests on the bare [except]. *)
Example except_IndexError_lets_through (atan2 : Q -> Q -> Q) :
  try_except except_IndexError (check_posture_py_body atan2 PyNone)
  = Raised TypeError
  /\ try_except except_IndexError
       (check_posture_py_body atan2 (PyList (repeat PyNone 33)))
     = Raised AttributeError.
Proof. split; reflexivity. Qed.

(** ** Configuration *)

(** [int] of a float between two non-negative integers lies between them. *)
Lemma int_between (lo hi : Z) (value : Q) :
  (0 <= lo)%Z -> inject_Z lo <= value -> value <= inject_Z hi ->
  (lo <= int value <= hi)%Z.
Proof.
  destruct value as [n d]. unfold int, Qle, inject_Z. cbn [Qnum Qden].
  intros Hlo H1 H2. rewrite Z.mul_1_r in H1, H2.
  assert (0 <= n)%Z by nia.
  rewrite Z.quot_div_nonneg by lia. split.
  - apply Z.div_le_lower_bound; lia.
  - apply Z.div_le_upper_bound; lia.
Qed.

(** C9, as the code has it.  A write through [update_sensitivity] or
    [update_duration] stores [int(value)] whatever the value is: nothing is
    rejected and nothing is clamped.  A value within the slider's range, 5
    to 20 for the sensitivity and 1 to 10 for the duration, is stored as an
    integer of that range. *)
Theorem update_stores_int (value : Q) (s : state) :
  sensitivity (update_sensitivity value s) = int value
  /\ alert_duration (update_duration value s) = int value
  /\ (5 <= value /\ value <= 20 ->
      (5 <= sensitivity (update_sensitivity value s) <= 20)%Z)
  /\ (1 <= value /\ value <= 10 ->
      (1 <= alert_duration (update_duration value s) <= 10)%Z).
Proof.
  split; [reflexivity|]. split; [reflexivity|].
  split; intros [Hlo Hhi].
  - exact (int_between 5 20 value ltac:(lia) Hlo Hhi).
  - exact (int_between 1 10 value ltac:(lia) Hlo Hhi).
Qed.

Lemma update_stores_int_witness :
  (5 <= 25 # 2 /\ 25 # 2 <= 20)
  /\ (1 <= 7 # 2 /\ 7 # 2 <= 10)
  /\ sensitivity (update_sensitivity (25 # 2) init) = 12%Z
  /\ alert_duration (update_duration (7 # 2) init) = 3%Z
  /\ (5 <= sensitivity (update_sensitivity (25 # 2) init) <= 20)%Z
  /\ (1 <= alert_duration (update_duration (7 # 2) init) <= 10)%Z.
Proof.
  assert (H1 : 5 <= 25 # 2 /\ 25 # 2 <= 20) by (split; discriminate).
  assert (H2 : 1 <= 7 # 2 /\ 7 # 2 <= 10) by (split; discriminate).
  destruct (update_stores_int (25 # 2) init) as (E1 & _ & R1 & _).
  destruct (update_stores_int (7 # 2) init) as (_ & E2 & _ & R2).
  exact (conj H1 (conj H2 (conj E1 (conj E2 (conj (R1 H1) (R2 H2)))))).
Defined.

(** C9 as stated fails: 25 degrees and 0 seconds, both out of range, are
    stored as the active settings, and a negative sensitivity too. *)
Lemma update_out_of_range_stored :
  sensitivity (update_sensitivity 25 init) = 25%Z
  /\ alert_duration (update_duration 0 init) = 0%Z
  /\ sensitivity (update_sensitivity (-3) init) = (-3)%Z.
Proof. repeat split. Qed.

(** ** Deviation evaluation *)

(** C2.  A signature is classified bad exactly when the shoulder slopes
    differ by more than the sensitivity, or the neck angles do, or the head
    is forward now and was not in the baseline; otherwise it is good.  A
    signature identical to the baseline is good under every sensitivity
    from 0 up, which covers the initial 8 and the slider's range from 5 to
    20. *)
Theorem is_bad_posture_spec (posture good : signature) (sens : Z) :
  (is_bad_posture posture good sens = true <->
     inject_Z sens < Qabs (shoulder_slope posture - shoulder_slope good)
     \/ inject_Z sens < Qabs (neck_angle posture - neck_angle good)
     \/ (head_forward posture = true /\ head_forward good = false))
  /\ ((0 <= sens)%Z -> is_bad_posture posture posture sens = false).
Proof.
  split.
  - unfold is_bad_posture. rewrite !orb_true_iff, andb_true_iff, negb_true_iff.
    rewrite !Qgtb_true. tauto.
  - intros Hs. unfold is_bad_posture.
    assert (Hz : forall a : Q, Qgtb (Qabs (a - a)) (inject_Z sens) = false).
    { intros a. apply Qgtb_false.
      assert (E : Qabs (a - a) == 0).
      { rewrite <- Qabs_wd with (x := 0); [reflexivity | ring]. }
      rewrite E. change 0 with (inject_Z 0). rewrite <- Zle_Qle. exact Hs. }
    rewrite !Hz. cbn. apply andb_negb_r.
Qed.

Lemma is_bad_posture_spec_witness :
  (0 <= 8)%Z
  /\ is_bad_posture (Signature 2 170 false) (Signature 2 170 false) 8 = false.
Proof.
  assert (H : (0 <= 8)%Z) by lia.
  exact (conj H (proj2 (is_bad_posture_spec
                          (Signature 2 170 false) (Signature 2 170 false) 8)
                       H)).
Defined.

(** The two scenarios of the evaluation at sensitivity 8. *)
Example is_bad_posture_shoulder :
  is_bad_posture (Signature 11 172 false) (Signature 2 172 false) 8 = true.
Proof. reflexivity. Qed.

Example is_bad_posture_head :
  is_bad_posture (Signature 5 175 true) (Signature 2 172 false) 8 = true.
Proof. reflexivity. Qed.

(** ** One frame *)

Lemma alerts_app (out1 out2 : list effect) :
  alerts (out1 ++ out2) = (alerts out1 + alerts out2)%nat.
Proof. unfold alerts. rewrite filter_app, length_app. reflexivity. Qed.

Lemma set_bad_posture_counter_same (s : state) :
  set_bad_posture_counter (bad_posture_counter s) s = s.
Proof. destruct s. reflexivity. Qed.

Section FrameFacts.

Variable atan2 : Q -> Q -> Q.

(** A frame without a signature: the state is as it was, and the only
    status written is that of a frame without landmarks. *)
Lemma process_frame_no_signature (now : Q) (c : capture) (s : state) :
  signature_of atan2 c = None ->
  process_frame atan2 now c s
  = (s, match c with
        | Frame None => [Status "👤 No person detected" "white"]
        | _ => []
        end).
Proof.
  destruct c as [| |[landmarks|]]; cbn; try reflexivity.
  intros ->. reflexivity.
Qed.

(** A frame classified bad while monitoring. *)
Lemma process_frame_bad (now : Q) (c : capture) (s : state)
      (good : signature) :
  monitoring s = true -> good_posture s = Some good ->
  classified atan2 good (sensitivity s) true c ->
  process_frame atan2 now c s
  = let s1 := set_bad_posture_counter (bad_posture_counter s + 1) s in
    if (bad_posture_counter s + 1 >? 5)%Z
    then (fst (show_alert now s1),
          snd (show_alert now s1) ++ [Status "⚠️ Poor posture detected!" "red"])
    else (s1, []).
Proof.
  intros Hm Hg (posture & Hsig & Hbad).
  destruct c as [| |[landmarks|]]; cbn in Hsig; try discriminate.
  unfold process_frame. rewrite Hsig, Hg, Hm, Hbad, andb_false_r.
  cbn [bad_posture_counter set_bad_posture_counter].
  destruct (bad_posture_counter s + 1 >? 5)%Z; [|reflexivity].
  destruct (show_alert now _). reflexivity.
Qed.

(** A frame classified good while monitoring. *)
Lemma process_frame_good (now : Q) (c : capture) (s : state)
      (good : signature) :
  monitoring s = true -> good_posture s = Some good ->
  classified atan2 good (sensitivity s) false c ->
  process_frame atan2 now c s
  = (set_bad_posture_counter 0 s,
     [Status "✓ Good posture! Keep it up 💚" "lightgreen"]).
Proof.
  intros Hm Hg (posture & Hsig & Hbad).
  destruct c as [| |[landmarks|]]; cbn in Hsig; try discriminate.
  unfold process_frame. rewrite Hsig, Hg, Hm, Hbad, andb_false_r.
  reflexivity.
Qed.

(** The first frame with a signature while calibrating. *)
Lemma process_frame_calibrating (now : Q) (c : capture) (s : state)
      (posture : signature) :
  calibrating s = true -> good_posture s = None ->
  signature_of atan2 c = Some posture ->
  process_frame atan2 now c s = (set_good_posture (Some posture) s, []).
Proof.
  intros Hc Hg Hsig.
  destruct c as [| |[landmarks|]]; cbn in Hsig; try discriminate.
  unfold process_frame. rewrite Hsig, Hg, Hc. reflexivity.
Qed.

(** No frame touches the flags or the settings, and a baseline in place
    stays. *)
Lemma process_frame_keeps (now : Q) (c : capture) (s : state) :
  let s' := fst (process_frame atan2 now c s) in
  monitoring s' = monitoring s
  /\ calibrating s' = calibrating s
  /\ sensitivity s' = sensitivity s
  /\ alert_duration s' = alert_duration s
  /\ (forall good, good_posture s = Some good ->
                   good_posture s' = Some good).
Proof.
  destruct c as [| |[landmarks|]]; cbn; try (repeat split; auto; fail).
  destruct (check_posture atan2 landmarks) as [posture|];
    [|repeat split; auto].
  destruct s as [g n sens dur last m cal]. cbn.
  destruct cal, g as [good|], m; cbn;
    try (repeat split; auto; discriminate).
  all: destruct (is_bad_posture posture good sens); cbn;
    [|repeat split; auto].
  all: destruct (n + 1 >? 5)%Z; cbn; [|repeat split; auto].
  all: unfold show_alert; cbn;
    destruct (Qltb (now - last) (inject_Z dur)); cbn; repeat split; auto.
Qed.

(** Within the cooldown no frame opens the overlay, and the time of the
    last alert stays. *)
Lemma process_frame_within_cooldown (now : Q) (c : capture) (s : state) :
  now - last_alert_time s < inject_Z (alert_duration s) ->
  alerts (snd (process_frame atan2 now c s)) = 0%nat
  /\ last_alert_time (fst (process_frame atan2 now c s)) = last_alert_time s.
Proof.
  intros Hcool. apply Qltb_true in Hcool.
  destruct c as [| |[landmarks|]]; cbn; try (split; reflexivity).
  destruct (check_posture atan2 landmarks) as [posture|];
    [|split; reflexivity].
  destruct s as [g n sens dur last m cal]. cbn in *.
  destruct cal, g as [good|], m; cbn; try (split; reflexivity).
  all: destruct (is_bad_posture posture good sens); cbn;
    [|split; reflexivity].
  all: destruct (n + 1 >? 5)%Z; cbn; [|split; reflexivity].
  all: unfold show_alert; cbn; rewrite Hcool; cbn; split; reflexivity.
Qed.

(** A frame that opens the overlay leaves the clock reading of its call
    as the time of the last alert. *)
Lemma process_frame_alert_time (now : Q) (c : capture) (s : state) :
  alerts (snd (process_frame atan2 now c s)) <> 0%nat ->
  last_alert_time (fst (process_frame atan2 now c s)) = now.
Proof.
  destruct c as [| |[landmarks|]]; cbn; try congruence.
  destruct (check_posture atan2 landmarks) as [posture|]; [|cbn; congruence].
  destruct s as [g n sens dur last m cal]. cbn.
  destruct cal, g as [good|], m; cbn; try congruence.
  all: destruct (is_bad_posture posture good sens); cbn; try congruence.
  all: destruct (n + 1 >? 5)%Z; cbn; try congruence.
  all: unfold show_alert; cbn;
    destruct (Qltb (now - last) (inject_Z dur)); cbn; congruence.
Qed.

End FrameFacts.

(** ** Runs of frames *)

Section RunFacts.

Variable atan2 : Q -> Q -> Q.

Lemma run_app (es1 es2 : list event) (s : state) :
  run atan2 (es1 ++ es2) s
  = (fst (run atan2 es2 (fst (run atan2 es1 s))),
     snd (run atan2 es1 s) ++ snd (run atan2 es2 (fst (run atan2 es1 s)))).
Proof.
  revert s. induction es1 as [|e es1 IH]; intros s; cbn.
  - destruct (run atan2 es2 s). reflexivity.
  - destruct (step atan2 e s) as [s1 out1]. rewrite IH.
    destruct (run atan2 es1 s1) as [s2 out2]. cbn.
    rewrite app_assoc. reflexivity.
Qed.

Lemma run_tick (now : Q) (c : capture) (frames : list (Q * capture))
      (s : state) :
  run atan2 (ticks ((now, c) :: frames)) s
  = (fst (run atan2 (ticks frames) (fst (process_frame atan2 now c s))),
     snd (process_frame atan2 now c s)
     ++ snd (run atan2 (ticks frames) (fst (process_frame atan2 now c s)))).
Proof.
  unfold ticks. cbn. destruct (process_frame atan2 now c s) as [s1 out1].
  cbn. destruct (run atan2 _ s1). reflexivity.
Qed.

(** Bad frames that keep the counter at 5 or less only count. *)
Lemma run_bad_below_threshold (frames : list (Q * capture)) :
  forall (s : state) (good : signature),
    monitoring s = true -> good_posture s = Some good ->
    Forall (fun f => classified atan2 good (sensitivity s) true (snd f))
           frames ->
    (bad_posture_counter s + Z.of_nat (List.length frames) <= 5)%Z ->
    run atan2 (ticks frames) s
    = (set_bad_posture_counter
         (bad_posture_counter s + Z.of_nat (List.length frames)) s, []).
Proof.
  induction frames as [|[now c] frames IH]; intros s good Hm Hg Hbad Hlen.
  - cbn. rewrite Z.add_0_r, set_bad_posture_counter_same. reflexivity.
  - rewrite run_tick. inversion Hbad as [|f fs Hc Hrest]; subst.
    cbn [snd] in Hc. cbn [List.length] in Hlen.
    rewrite (process_frame_bad atan2 now c s good Hm Hg Hc).
    replace (bad_posture_counter s + 1 >? 5)%Z with false
      by (symmetry; rewrite Z.gtb_ltb; apply Z.ltb_ge; lia).
    cbn [fst snd].
    rewrite (IH (set_bad_posture_counter (bad_posture_counter s + 1) s) good).
    + cbn [List.length]. rewrite Nat2Z.inj_succ.
      destruct s; unfold set_bad_posture_counter;
        cbn [good_posture bad_posture_counter sensitivity alert_duration
             last_alert_time monitoring calibrating fst snd app].
      do 2 f_equal. lia.
    + exact Hm.
    + exact Hg.
    + exact Hrest.
    + rewrite Nat2Z.inj_succ in Hlen. cbn [bad_posture_counter set_bad_posture_counter]. lia.
Qed.

(** Frames without a signature leave the state as it was. *)
Lemma run_no_signature (frames : list (Q * capture)) (s : state) :
  Forall (fun f => signature_of atan2 (snd f) = None) frames ->
  fst (run atan2 (ticks frames) s) = s.
Proof.
  induction 1 as [|[now c] frames Hc _ IH]; [reflexivity|].
  rewrite run_tick. cbn [fst snd] in *.
  rewrite (process_frame_no_signature atan2 now c s Hc). exact IH.
Qed.

(** Frames keep a baseline that is in place. *)
Lemma run_keeps_baseline (frames : list (Q * capture)) :
  forall (s : state) (good : signature),
    good_posture s = Some good ->
    good_posture (fst (run atan2 (ticks frames) s)) = Some good.
Proof.
  induction frames as [|[now c] frames IH]; intros s good Hg; [exact Hg|].
  rewrite run_tick. cbn [fst]. apply IH.
  apply (process_frame_keeps atan2 now c s). exact Hg.
Qed.

(** Frames that all come within the cooldown open no overlay. *)
Lemma run_within_cooldown (frames : list (Q * capture)) :
  forall s : state,
    Forall (fun f => fst f - last_alert_time s < inject_Z (alert_duration s))
           frames ->
    alerts (snd (run atan2 (ticks frames) s)) = 0%nat
    /\ last_alert_time (fst (run atan2 (ticks frames) s))
       = last_alert_time s.
Proof.
  induction frames as [|[now c] frames IH]; intros s Hall;
    [split; reflexivity|].
  inversion Hall as [|f fs Hc Hrest]; subst. cbn [fst] in Hc.
  rewrite run_tick. cbn [fst snd]. rewrite alerts_app.
  destruct (process_frame_within_cooldown atan2 now c s Hc) as [Ha Hl].
  destruct (process_frame_keeps atan2 now c s) as (_ & _ & _ & Hd & _).
  destruct (IH (fst (process_frame atan2 now c s))) as [Ha' Hl'].
  { rewrite Hl, Hd. exact Hrest. }
  rewrite Ha, Ha', Hl', Hl. split; reflexivity.
Qed.

End RunFacts.

(** ** The alert threshold *)

Lemma ticks_app (frames1 frames2 : list (Q * capture)) :
  ticks (frames1 ++ frames2) = ticks frames1 ++ ticks frames2.
Proof. apply map_app. Qed.

Lemma classified_slouched :
  classified atan2_octant
    (Signature (0 # 884279719003555)
       (50443097245402793800808441042937420715760025600
        # 280239429141126632226713561349652337309777920) false)
    8 true (Frame (Some slouched)).
Proof.
  eexists. split; [vm_compute; reflexivity|]. vm_compute. reflexivity.
Qed.

Lemma classified_upright :
  classified atan2_octant
    (Signature (0 # 884279719003555)
       (50443097245402793800808441042937420715760025600
        # 280239429141126632226713561349652337309777920) false)
    8 false (Frame (Some upright)).
Proof.
  eexists. split; [vm_compute; reflexivity|]. vm_compute. reflexivity.
Qed.

(** C1, as the code has it.  While monitoring against a baseline, from a
    counter at 0: up to 5 consecutive bad frames open no overlay and only
    count; the 6th consecutive bad frame opens exactly one overlay when no
    cooldown is active at its time; and a good frame puts the counter back
    to 0 without an alert, leaving the monitoring as it was, so that 6 new
    consecutive bad frames are needed again. *)
Theorem alert_on_sixth_bad_frame (atan2 : Q -> Q -> Q) (s : state)
        (good : signature) :
  monitoring s = true -> good_posture s = Some good ->
  (forall frames,
      bad_posture_counter s = 0%Z -> (List.length frames <= 5)%nat ->
      Forall (fun f => classified atan2 good (sensitivity s) true (snd f))
             frames ->
      alerts (snd (run atan2 (ticks frames) s)) = 0%nat
      /\ bad_posture_counter (fst (run atan2 (ticks frames) s))
         = Z.of_nat (List.length frames))
  /\ (forall frames now c,
         bad_posture_counter s = 0%Z -> List.length frames = 5%nat ->
         Forall (fun f => classified atan2 good (sensitivity s) true (snd f))
                frames ->
         classified atan2 good (sensitivity s) true c ->
         inject_Z (alert_duration s) <= now - last_alert_time s ->
         alerts (snd (process_frame atan2 now c
                        (fst (run atan2 (ticks frames) s)))) = 1%nat
         /\ alerts (snd (run atan2 (ticks (frames ++ [(now, c)])) s)) = 1%nat
         /\ bad_posture_counter
              (fst (run atan2 (ticks (frames ++ [(now, c)])) s)) = 6%Z)
  /\ (forall now c,
         classified atan2 good (sensitivity s) false c ->
         bad_posture_counter (fst (process_frame atan2 now c s)) = 0%Z
         /\ alerts (snd (process_frame atan2 now c s)) = 0%nat
         /\ monitoring (fst (process_frame atan2 now c s)) = true
         /\ good_posture (fst (process_frame atan2 now c s)) = Some good
         /\ sensitivity (fst (process_frame atan2 now c s)) = sensitivity s).
Proof.
  intros Hm Hg. split; [|split].
  - intros frames H0 Hlen Hbad.
    rewrite (run_bad_below_threshold atan2 frames s good Hm Hg Hbad)
      by (rewrite H0; lia).
    cbn. rewrite H0. split; reflexivity.
  - intros frames now c H0 Hlen Hbad Hc Hcool.
    assert (Hrun : run atan2 (ticks frames) s
                   = (set_bad_posture_counter 5 s, [])).
    { rewrite (run_bad_below_threshold atan2 frames s good Hm Hg Hbad)
        by (rewrite H0, Hlen; cbn; lia).
      rewrite H0, Hlen. reflexivity. }
    assert (Hstep : process_frame atan2 now c (set_bad_posture_counter 5 s)
                    = (set_last_alert_time now (set_bad_posture_counter 6 s),
                       [AlertOverlay; Status "⚠️ Poor posture detected!" "red"])).
    { rewrite (process_frame_bad atan2 now c _ good); auto.
      cbn [bad_posture_counter set_bad_posture_counter Z.add Pos.add
           Pos.succ Z.gtb Z.compare Pos.compare Pos.compare_cont].
      unfold show_alert.
      cbn [last_alert_time alert_duration set_bad_posture_counter
           good_posture bad_posture_counter sensitivity monitoring
           calibrating].
      apply Qltb_false in Hcool. rewrite Hcool. reflexivity. }
    rewrite ticks_app, run_app, Hrun. cbn [fst snd app].
    change (ticks [(now, c)]) with [Tick now c]. cbn [run step].
    rewrite Hstep. cbn. repeat split.
  - intros now c Hc.
    rewrite (process_frame_good atan2 now c s good Hm Hg Hc). cbn.
    repeat split; assumption.
Qed.

(** Five frames of the slouched pose, then a sixth, after the calibration
    on the upright pose; and an upright frame. *)
Lemma alert_on_sixth_bad_frame_witness :
  (alerts (snd (run atan2_octant (ticks (frames_of slouched 3030 5))
                    calibrated)) = 0%nat
   /\ bad_posture_counter
        (fst (run atan2_octant (ticks (frames_of slouched 3030 5))
                  calibrated)) = 5%Z)
  /\ (alerts (snd (process_frame atan2_octant (3035 # 30)
                     (Frame (Some slouched))
                     (fst (run atan2_octant
                               (ticks (frames_of slouched 3030 5))
                               calibrated)))) = 1%nat
      /\ alerts (snd (run atan2_octant
                          (ticks (frames_of slouched 3030 5
                                  ++ [(3035 # 30, Frame (Some slouched))]))
                          calibrated)) = 1%nat
      /\ bad_posture_counter
           (fst (run atan2_octant
                     (ticks (frames_of slouched 3030 5
                             ++ [(3035 # 30, Frame (Some slouched))]))
                     calibrated)) = 6%Z)
  /\ (bad_posture_counter
        (fst (process_frame atan2_octant 101 (Frame (Some upright))
                calibrated)) = 0%Z
      /\ alerts (snd (process_frame atan2_octant 101 (Frame (Some upright))
                        calibrated)) = 0%nat
      /\ monitoring (fst (process_frame atan2_octant 101
                            (Frame (Some upright)) calibrated)) = true
      /\ good_posture (fst (process_frame atan2_octant 101
                              (Frame (Some upright)) calibrated))
         = good_posture calibrated
      /\ sensitivity (fst (process_frame atan2_octant 101
                             (Frame (Some upright)) calibrated)) = 8%Z).
Proof.
  assert (Hm : monitoring calibrated = true) by reflexivity.
  assert (Hg : good_posture calibrated
               = Some (Signature (0 # 884279719003555)
                         (50443097245402793800808441042937420715760025600
                          # 280239429141126632226713561349652337309777920)
                         false)) by (vm_compute; reflexivity).
  assert (H0 : bad_posture_counter calibrated = 0%Z) by reflexivity.
  assert (Hbad : Forall (fun f => classified atan2_octant
                                    (Signature (0 # 884279719003555)
                         (50443097245402793800808441042937420715760025600
                          # 280239429141126632226713561349652337309777920)
                                       false)
                                    (sensitivity calibrated) true (snd f))
                        (frames_of slouched 3030 5)).
  { repeat constructor; exact classified_slouched. }
  assert (Hcool : inject_Z (alert_duration calibrated)
                  <= (3035 # 30) - last_alert_time calibrated)
    by (vm_compute; discriminate).
  destruct (alert_on_sixth_bad_frame atan2_octant calibrated _ Hm Hg)
    as (P1 & P2 & P3).
  split; [|split].
  - exact (P1 (frames_of slouched 3030 5) H0 (Nat.le_refl 5) Hbad).
  - exact (P2 (frames_of slouched 3030 5) (3035 # 30) (Frame (Some slouched))
              H0 eq_refl Hbad classified_slouched Hcool).
  - rewrite Hg. exact (P3 101 (Frame (Some upright)) classified_upright).
Defined.

(** C1 as stated fails: after the calibration, 6 consecutive bad frames
    already open the overlay, at the 6th of them, and the 7th, a thirtieth
    of a second later, opens none. *)
Lemma six_bad_frames_alert :
  alerts (snd (run atan2_octant (ticks (frames_of slouched 3030 6))
                   calibrated)) = 1%nat
  /\ alerts (snd (run atan2_octant (ticks (frames_of slouched 3030 5))
                      calibrated)) = 0%nat
  /\ alerts (snd (process_frame atan2_octant (3036 # 30)
                    (Frame (Some slouched))
                    (fst (run atan2_octant
                              (ticks (frames_of slouched 3030 6))
                              calibrated)))) = 0%nat.
Proof. repeat split; vm_compute; reflexivity. Qed.

(** ** The cooldown *)

(** C3.  Once a frame has opened the overlay, at clock reading [now], the
    time of the last alert is [now] and frames whose clock readings are
    less than [alert_duration] past it open no second overlay, bad as they
    may be; a bad frame that comes when exactly [alert_duration] has passed
    since the last alert, the counter being at 5 or more, opens the
    overlay; and a bad frame, opening the overlay or not, adds one to the
    counter and never resets it. *)
Theorem cooldown_gate (atan2 : Q -> Q -> Q) (s : state) :
  (forall now c frames,
      alerts (snd (process_frame atan2 now c s)) <> 0%nat ->
      Forall (fun f => fst f - now < inject_Z (alert_duration s)) frames ->
      last_alert_time (fst (process_frame atan2 now c s)) = now
      /\ alerts (snd (run atan2 (ticks frames)
                          (fst (process_frame atan2 now c s)))) = 0%nat)
  /\ (forall good now c,
         monitoring s = true -> good_posture s = Some good ->
         classified atan2 good (sensitivity s) true c ->
         (5 <= bad_posture_counter s)%Z ->
         now - last_alert_time s == inject_Z (alert_duration s) ->
         alerts (snd (process_frame atan2 now c s)) = 1%nat
         /\ last_alert_time (fst (process_frame atan2 now c s)) = now)
  /\ (forall good now c,
         monitoring s = true -> good_posture s = Some good ->
         classified atan2 good (sensitivity s) true c ->
         bad_posture_counter (fst (process_frame atan2 now c s))
         = (bad_posture_counter s + 1)%Z).
Proof.
  split; [|split].
  - intros now c frames Hfired Hwithin.
    pose proof (process_frame_alert_time atan2 now c s Hfired) as Hlast.
    split; [exact Hlast|].
    apply run_within_cooldown. rewrite Hlast.
    destruct (process_frame_keeps atan2 now c s) as (_ & _ & _ & Hd & _).
    rewrite Hd. exact Hwithin.
  - intros good now c Hm Hg Hc Hn Hedge.
    rewrite (process_frame_bad atan2 now c s good Hm Hg Hc).
    replace (bad_posture_counter s + 1 >? 5)%Z with true
      by (symmetry; rewrite Z.gtb_ltb; apply Z.ltb_lt; lia).
    unfold show_alert.
    cbn [last_alert_time alert_duration set_bad_posture_counter].
    replace (Qltb (now - last_alert_time s) (inject_Z (alert_duration s)))
      with false
      by (symmetry; apply Qltb_false; rewrite Hedge; apply Qle_refl).
    split; reflexivity.
  - intros good now c Hm Hg Hc.
    rewrite (process_frame_bad atan2 now c s good Hm Hg Hc).
    destruct (bad_posture_counter s + 1 >? 5)%Z; [|reflexivity].
    unfold show_alert. cbn [fst].
    destruct (Qltb _ _); reflexivity.
Qed.

(** After the calibration and 5 slouched frames: the 6th opens the overlay
    at 3035/30, the 80 frames that follow come within the 3 seconds and
    open none; a slouched frame exactly 3 seconds after an alert at 100
    opens one; and the counter goes from 0 to 1 on a slouched frame. *)
Lemma cooldown_gate_witness :
  (last_alert_time
     (fst (process_frame atan2_octant (3035 # 30) (Frame (Some slouched))
             (set_bad_posture_counter 5 calibrated))) = 3035 # 30
   /\ alerts (snd (run atan2_octant (ticks (frames_of slouched 3036 80))
                       (fst (process_frame atan2_octant (3035 # 30)
                               (Frame (Some slouched))
                               (set_bad_posture_counter 5 calibrated)))))
      = 0%nat)
  /\ (alerts (snd (process_frame atan2_octant 103 (Frame (Some slouched))
                     (set_last_alert_time 100
                        (set_bad_posture_counter 40 calibrated)))) = 1%nat
      /\ last_alert_time
           (fst (process_frame atan2_octant 103 (Frame (Some slouched))
                   (set_last_alert_time 100
                      (set_bad_posture_counter 40 calibrated)))) = 103)
  /\ bad_posture_counter
       (fst (process_frame atan2_octant 101 (Frame (Some slouched))
               calibrated)) = (bad_posture_counter calibrated + 1)%Z.
Proof.
  assert (Hg : good_posture calibrated
               = Some (Signature (0 # 884279719003555)
                         (50443097245402793800808441042937420715760025600
                          # 280239429141126632226713561349652337309777920)
                         false)) by (vm_compute; reflexivity).
  split; [|split].
  - apply (proj1 (cooldown_gate atan2_octant
                    (set_bad_posture_counter 5 calibrated))).
    + vm_compute. discriminate.
    + unfold frames_of. apply Forall_forall. intros f Hin.
      apply in_map_iff in Hin. destruct Hin as (k & <- & Hk).
      apply in_seq in Hk. cbn [fst alert_duration set_bad_posture_counter].
      change (alert_duration calibrated) with 3%Z.
      unfold Qlt, Qminus, Qplus, Qopp, inject_Z. cbn [Qnum Qden]. lia.
  - apply (proj1 (proj2 (cooldown_gate atan2_octant
                           (set_last_alert_time 100
                              (set_bad_posture_counter 40 calibrated))))
             _ 103 (Frame (Some slouched)) eq_refl Hg classified_slouched).
    + cbn. lia.
    + reflexivity.
  - exact (proj2 (proj2 (cooldown_gate atan2_octant calibrated))
             _ 101 (Frame (Some slouched)) eq_refl Hg classified_slouched).
Defined.

(** ** Calibration *)

(** C4.  Starting a calibration clears the baseline and sets the
    calibrating flag.  After it, frames without a signature leave the
    baseline unset, the first frame with a signature makes that signature
    the baseline, and whatever frames follow leave it as it is. *)
Theorem first_signature_is_baseline (atan2 : Q -> Q -> Q) (s : state)
        (before after : list (Q * capture)) (now : Q) (c : capture)
        (sig : signature) :
  Forall (fun f => signature_of atan2 (snd f) = None) before ->
  signature_of atan2 c = Some sig ->
  (good_posture (fst (calibrate_posture s)) = None
   /\ calibrating (fst (calibrate_posture s)) = true)
  /\ good_posture
       (fst (run atan2 (Calibrate :: ticks before) s)) = None
  /\ good_posture
       (fst (run atan2 (Calibrate :: ticks (before ++ [(now, c)])) s))
     = Some sig
  /\ good_posture
       (fst (run atan2 (Calibrate :: ticks (before ++ (now, c) :: after)) s))
     = Some sig.
Proof.
  intros Hbefore Hsig.
  assert (Hcons : forall es,
             run atan2 (Calibrate :: es) s
             = (fst (run atan2 es (fst (calibrate_posture s))),
                snd (calibrate_posture s)
                ++ snd (run atan2 es (fst (calibrate_posture s))))).
  { intros es. cbn [run step]. destruct (calibrate_posture s) as [s0 out0].
    cbn [fst snd]. destruct (run atan2 es s0). reflexivity. }
  assert (Hone : forall after',
             good_posture
               (fst (run atan2 (ticks (before ++ (now, c) :: after'))
                         (fst (calibrate_posture s)))) = Some sig).
  { intros after'. rewrite ticks_app, run_app. cbn [fst].
    rewrite (run_no_signature atan2 before _ Hbefore).
    rewrite run_tick. cbn [fst].
    rewrite (process_frame_calibrating atan2 now c _ sig); auto.
    apply run_keeps_baseline. reflexivity. }
  split; [split; reflexivity|]. rewrite !Hcons. cbn [fst].
  split; [|split].
  - rewrite (run_no_signature atan2 before _ Hbefore). reflexivity.
  - apply Hone.
  - apply Hone.
Qed.

(** A calibration started while monitoring against [upright]: a frame
    without landmarks and one with too few of them, then a slouched frame,
    then upright ones.  The slouched signature is the baseline. *)
Lemma first_signature_is_baseline_witness :
  Forall (fun f => signature_of atan2_octant (snd f) = None)
         [(200, Frame None); (201, Frame (Some (firstn 20 upright)))]
  /\ good_posture
       (fst (run atan2_octant
                 (Calibrate
                  :: ticks ([(200, Frame None);
                             (201, Frame (Some (firstn 20 upright)))]
                            ++ (202, Frame (Some slouched))
                            :: frames_of upright 6090 3))
                 calibrated))
     = check_posture atan2_octant slouched.
Proof.
  assert (Hbefore :
            Forall (fun f => signature_of atan2_octant (snd f) = None)
                   [(200, Frame None);
                    (201, Frame (Some (firstn 20 upright)))])
    by (repeat constructor).
  assert (Hsig : signature_of atan2_octant (Frame (Some slouched))
                 = Some (Signature (0 # 884279719003555)
                           (75664645868104190701212661564406131073640038400
                            # 560478858282253264453427122699304674619555840)
                           true))
    by (vm_compute; reflexivity).
  split; [exact Hbefore|].
  change (check_posture atan2_octant slouched)
    with (signature_of atan2_octant (Frame (Some slouched))).
  rewrite Hsig.
  exact (proj2 (proj2 (proj2
           (first_signature_is_baseline atan2_octant calibrated _
              (frames_of upright 6090 3) 202 (Frame (Some slouched)) _
              Hbefore Hsig)))).
Defined.

(** C5, as the code has it.  When the window ends without a baseline, the
    calibrating flag is cleared, the monitoring flag stays as it was and no
    status is written; when it ends with a baseline, the calibrating flag is
    cleared, the monitoring flag is set and the success status is
    written. *)
Theorem finish_calibration_outcomes (s : state) :
  (good_posture s = None ->
   finish_calibration s = (set_calibrating false s, [])
   /\ calibrating (fst (finish_calibration s)) = false
   /\ monitoring (fst (finish_calibration s)) = monitoring s)
  /\ (forall good,
         good_posture s = Some good ->
         finish_calibration s
         = (set_monitoring true (set_calibrating false s),
            [Status "✓ Good posture calibrated! Monitoring..." "lightgreen"])
         /\ calibrating (fst (finish_calibration s)) = false
         /\ monitoring (fst (finish_calibration s)) = true
         /\ good_posture (fst (finish_calibration s)) = Some good).
Proof.
  split.
  - intros Hg. unfold finish_calibration. cbn [good_posture set_calibrating].
    rewrite Hg. repeat split.
  - intros good Hg. unfold finish_calibration.
    cbn [good_posture set_calibrating]. rewrite Hg. cbn [truthy fst].
    repeat split. exact Hg.
Qed.

Lemma finish_calibration_outcomes_witness :
  (good_posture (fst (calibrate_posture init)) = None
   /\ monitoring (fst (finish_calibration (fst (calibrate_posture init))))
      = false)
  /\ (good_posture (set_good_posture (Some (Signature 2 170 false))
                      (fst (calibrate_posture init)))
      = Some (Signature 2 170 false)
      /\ monitoring
           (fst (finish_calibration
                   (set_good_posture (Some (Signature 2 170 false))
                      (fst (calibrate_posture init))))) = true).
Proof.
  assert (H1 : good_posture (fst (calibrate_posture init)) = None)
    by reflexivity.
  assert (H2 : good_posture
                 (set_good_posture (Some (Signature 2 170 false))
                    (fst (calibrate_posture init)))
               = Some (Signature 2 170 false)) by reflexivity.
  destruct (finish_calibration_outcomes (fst (calibrate_posture init)))
    as [P1 _].
  destruct (finish_calibration_outcomes
              (set_good_posture (Some (Signature 2 170 false))
                 (fst (calibrate_posture init)))) as [_ P2].
  exact (conj (conj H1 (proj2 (proj2 (P1 H1))))
              (conj H2 (proj1 (proj2 (proj2 (P2 _ H2)))))).
Defined.

(** C5 as stated fails.  A calibration from the initial state during which
    the camera sees nobody: at the end of the window nothing is written, the
    last status being that of the frame.  And a calibration started while
    monitoring that ends without a baseline leaves the monitoring flag
    set. *)
Lemma window_elapsed_without_baseline :
  snd (finish_calibration
         (fst (run atan2_octant [Calibrate; Tick 100 (Frame None)] init)))
  = []
  /\ statuses (snd (run atan2_octant
                        [Calibrate; Tick 100 (Frame None); WindowElapsed]
                        init))
     = [("📸 Sit with good posture... capturing in 3 seconds!"%string,
         "yellow"%string);
        ("👤 No person detected"%string, "white"%string)]
  /\ (let s := fst (run atan2_octant
                        [Calibrate; Tick 200 (Frame None); WindowElapsed]
                        calibrated) in
      monitoring s = true /\ calibrating s = false /\ good_posture s = None).
Proof. repeat split. Qed.

(** ** The two flags *)

(** C6, as the code has it.  Neither flag is set initially; starting a
    calibration sets the calibrating flag and leaves the monitoring flag as
    it is, so that starting one while monitoring leaves both set; the end of
    a window with a baseline in place sets the monitoring flag and clears
    the calibrating one; and every call other than the start of a
    calibration leaves the two flags not both set when they were not both
    set before it. *)
Theorem flags_of_calls (atan2 : Q -> Q -> Q) :
  (monitoring init = false /\ calibrating init = false)
  /\ (forall s,
         calibrating (fst (calibrate_posture s)) = true
         /\ monitoring (fst (calibrate_posture s)) = monitoring s)
  /\ (forall s good,
         good_posture s = Some good ->
         monitoring (fst (finish_calibration s)) = true
         /\ calibrating (fst (finish_calibration s)) = false)
  /\ (forall e s,
         e <> Calibrate ->
         calibrating s && monitoring s = false ->
         calibrating (fst (step atan2 e s))
         && monitoring (fst (step atan2 e s)) = false).
Proof.
  split; [split; reflexivity|].
  split; [intros s; split; reflexivity|].
  split.
  - intros s good Hg. unfold finish_calibration.
    cbn [good_posture set_calibrating]. rewrite Hg. split; reflexivity.
  - intros e s He Hex. destruct e; cbn [step fst].
    + congruence.
    + unfold finish_calibration. destruct (truthy _); reflexivity.
    + destruct (process_frame_keeps atan2 current_time input s)
        as (Hm & Hc & _).
      cbn zeta in Hm, Hc. rewrite Hm, Hc. exact Hex.
    + exact Hex.
    + exact Hex.
    + cbn. apply andb_false_r.
Qed.

Lemma flags_of_calls_witness :
  (good_posture calibrated <> None
   /\ monitoring (fst (finish_calibration calibrated)) = true
   /\ calibrating (fst (finish_calibration calibrated)) = false)
  /\ (Closing <> Calibrate
      /\ calibrating calibrated && monitoring calibrated = false
      /\ calibrating (fst (step atan2_octant Closing calibrated))
         && monitoring (fst (step atan2_octant Closing calibrated)) = false).
Proof.
  destruct (flags_of_calls atan2_octant) as (_ & _ & P3 & P4).
  assert (Hg : good_posture calibrated
               = Some (Signature (0 # 884279719003555)
                         (50443097245402793800808441042937420715760025600
                          # 280239429141126632226713561349652337309777920)
                         false)) by (vm_compute; reflexivity).
  assert (Hne : Closing <> Calibrate) by discriminate.
  assert (Hex : calibrating calibrated && monitoring calibrated = false)
    by reflexivity.
  split.
  - split; [rewrite Hg; discriminate | exact (P3 calibrated _ Hg)].
  - exact (conj Hne (conj Hex (P4 Closing calibrated Hne Hex))).
Defined.

(** C6 as stated fails: a calibration started while monitoring leaves the
    calibrating and the monitoring flags both set. *)
Lemma recalibration_sets_both_flags :
  let s := fst (run atan2_octant
                    [Calibrate; Tick 100 (Frame (Some upright));
                     WindowElapsed; Calibrate] init) in
  calibrating s = true /\ monitoring s = true.
Proof. split; reflexivity. Qed.

(** ** Frames without a signature *)

(** C7, as the code has it.  A frame without a signature leaves the state
    as it was: the counter, the baseline and the time of the last alert are
    untouched and no overlay opens.  The status [No person detected] is
    written when the detector found no landmarks; when it found landmarks
    that [check_posture] gives up on, as when the camera gave no frame,
    nothing is written. *)
Theorem frame_without_signature (atan2 : Q -> Q -> Q) (now : Q)
        (c : capture) (s : state) :
  signature_of atan2 c = None ->
  fst (process_frame atan2 now c s) = s
  /\ alerts (snd (process_frame atan2 now c s)) = 0%nat
  /\ (c = Frame None ->
      snd (process_frame atan2 now c s)
      = [Status "👤 No person detected" "white"])
  /\ (c <> Frame None -> snd (process_frame atan2 now c s) = []).
Proof.
  intros Hsig. rewrite (process_frame_no_signature atan2 now c s Hsig).
  cbn [fst snd]. split; [reflexivity|].
  split; [destruct c as [| |[l|]]; reflexivity|].
  split.
  - intros ->. reflexivity.
  - intros Hne. destruct c as [| |[l|]]; try reflexivity. congruence.
Qed.

Lemma frame_without_signature_witness :
  signature_of atan2_octant (Frame None) = None
  /\ fst (process_frame atan2_octant 101 (Frame None)
            (set_bad_posture_counter 4 calibrated))
     = set_bad_posture_counter 4 calibrated
  /\ snd (process_frame atan2_octant 101 (Frame None)
            (set_bad_posture_counter 4 calibrated))
     = [Status "👤 No person detected" "white"].
Proof.
  assert (Hsig : signature_of atan2_octant (Frame None) = None)
    by reflexivity.
  destruct (frame_without_signature atan2_octant 101 (Frame None)
              (set_bad_posture_counter 4 calibrated) Hsig)
    as (P1 & _ & P3 & _).
  exact (conj Hsig (conj P1 (P3 eq_refl))).
Defined.

(** C7 as stated fails: on landmarks that [check_posture] gives up on, here
    the first 20 of a pose, the signature computation fails and no status is
    written. *)
Lemma short_landmark_list_no_status :
  check_posture atan2_octant (firstn 20 upright) = None
  /\ process_frame atan2_octant 101 (Frame (Some (firstn 20 upright)))
       calibrated
     = (calibrated, []).
Proof. split; reflexivity. Qed.

(** * Further properties of the code *)

(** ** The evaluation *)

(** X1.  Raising the sensitivity value never turns a good classification
    into a bad one: a signature that is bad under a sensitivity is bad
    under every smaller one. *)
Theorem is_bad_posture_monotone (posture good : signature) (sens1 sens2 : Z) :
  (sens1 <= sens2)%Z ->
  is_bad_posture posture good sens2 = true ->
  is_bad_posture posture good sens1 = true.
Proof.
  intros Hle. unfold is_bad_posture.
  rewrite !orb_true_iff, !Qgtb_true.
  assert (Hq : inject_Z sens1 <= inject_Z sens2) by (rewrite <- Zle_Qle; lia).
  intros [[H | H] | H].
  - left. left. eapply Qle_lt_trans; eassumption.
  - left. right. eapply Qle_lt_trans; eassumption.
  - right. exact H.
Qed.

Lemma is_bad_posture_monotone_witness :
  (5 <= 8)%Z
  /\ is_bad_posture (Signature 11 172 false) (Signature 2 172 false) 8 = true
  /\ is_bad_posture (Signature 11 172 false) (Signature 2 172 false) 5 = true.
Proof.
  assert (Hle : (5 <= 8)%Z) by lia.
  assert (Hb : is_bad_posture (Signature 11 172 false)
                 (Signature 2 172 false) 8 = true) by reflexivity.
  exact (conj Hle (conj Hb (is_bad_posture_monotone _ _ 5 8 Hle Hb))).
Defined.

(** X2.  Against a baseline calibrated with the head forward, the head
    never counts: the classification is bad exactly when one of the two
    angles differs by more than the sensitivity, whatever [head_forward]
    is in the live signature. *)
Theorem head_forward_baseline_masks_head (posture good : signature)
        (sens : Z) :
  head_forward good = true ->
  (is_bad_posture posture good sens = true <->
     inject_Z sens < Qabs (shoulder_slope posture - shoulder_slope good)
     \/ inject_Z sens < Qabs (neck_angle posture - neck_angle good)).
Proof.
  intros Hg. unfold is_bad_posture.
  rewrite Hg, andb_false_r, orb_false_r, orb_true_iff, !Qgtb_true.
  reflexivity.
Qed.

Lemma head_forward_baseline_masks_head_witness :
  head_forward (Signature 2 172 true) = true
  /\ is_bad_posture (Signature 5 175 true) (Signature 2 172 true) 8 = false.
Proof.
  assert (Hg : head_forward (Signature 2 172 true) = true) by reflexivity.
  split; [exact Hg|].
  destruct (is_bad_posture (Signature 5 175 true) (Signature 2 172 true) 8)
    eqn:E; [|reflexivity].
  apply (proj1 (head_forward_baseline_masks_head
                  (Signature 5 175 true) (Signature 2 172 true) 8 Hg)) in E.
  cbn in E. destruct E as [E | E]; vm_compute in E; discriminate.
Defined.

(** ** [int] and the settings *)

Lemma int_opp (value : Q) : int (- value) = (- int value)%Z.
Proof.
  destruct value as [n d]. unfold int, Qopp. cbn [Qnum Qden].
  apply Z.quot_opp_l. discriminate.
Qed.

Lemma int_nonneg_bounds (value : Q) :
  0 <= value ->
  inject_Z (int value) <= value /\ value < inject_Z (int value) + 1.
Proof.
  destruct value as [n d]. unfold int, Qle, Qlt, Qplus, inject_Z.
  cbn [Qnum Qden]. intros Hn. rewrite Z.mul_1_r in Hn.
  rewrite Z.quot_div_nonneg by lia.
  pose proof (Z.div_mod n (Z.pos d) ltac:(discriminate)) as Hdm.
  pose proof (Z.mod_pos_bound n (Z.pos d) ltac:(lia)) as Hb.
  split; nia.
Qed.

(** X3.  [int(value)] truncates toward zero: an integer is stored as
    itself, [int] of the opposite is the opposite, a non-negative value
    minus its fractional part is stored, and a non-positive value goes up
    to the next integer. *)
Theorem int_truncates (value : Q) (n : Z) :
  int (inject_Z n) = n
  /\ int (- value) = (- int value)%Z
  /\ (0 <= value ->
      inject_Z (int value) <= value /\ value < inject_Z (int value) + 1)
  /\ (value <= 0 ->
      value <= inject_Z (int value) /\ inject_Z (int value) - 1 < value).
Proof.
  split; [|split; [|split]].
  - unfold int, inject_Z. cbn [Qnum Qden]. apply Z.quot_1_r.
  - apply int_opp.
  - apply int_nonneg_bounds.
  - intros Hv.
    assert (Hn : 0 <= - value) by lra.
    destruct (int_nonneg_bounds (- value) Hn) as [H1 H2].
    rewrite int_opp, inject_Z_opp in H1, H2. split; lra.
Qed.

Lemma int_truncates_witness :
  (0 <= 77 # 10 /\ inject_Z (int (77 # 10)) <= 77 # 10)
  /\ (- (77 # 10) <= 0 /\ - (77 # 10) <= inject_Z (int (- (77 # 10))))
  /\ int (77 # 10) = 7%Z /\ int (- (77 # 10)) = (-7)%Z.
Proof.
  assert (H1 : 0 <= 77 # 10) by discriminate.
  assert (H2 : - (77 # 10) <= 0) by discriminate.
  destruct (int_truncates (77 # 10) 0) as (_ & _ & P & _).
  destruct (int_truncates (- (77 # 10)) 0) as (_ & _ & _ & N).
  exact (conj (conj H1 (proj1 (P H1)))
              (conj (conj H2 (proj1 (N H2))) (conj eq_refl eq_refl))).
Defined.

(** ** The overlay *)

(** X4.  The overlay is 500 by 200 and centred: on every screen the
    margins left and right of it, and above and below it, differ by at most
    one pixel; on a screen of at least 500 by 200 it lies within the
    screen. *)
Theorem alert_geometry_centred (screen_width screen_height : Z) :
  let '(width, height, x, y) := alert_geometry screen_width screen_height in
  width = 500%Z /\ height = 200%Z
  /\ (0 <= (screen_width - (x + width)) - x <= 1)%Z
  /\ (0 <= (screen_height - (y + height)) - y <= 1)%Z
  /\ ((500 <= screen_width)%Z -> (0 <= x /\ x + width <= screen_width)%Z)
  /\ ((200 <= screen_height)%Z -> (0 <= y /\ y + height <= screen_height)%Z).
Proof.
  unfold alert_geometry.
  pose proof (Z.div_mod (screen_width - 500) 2 ltac:(lia)) as Hx.
  pose proof (Z.mod_pos_bound (screen_width - 500) 2 ltac:(lia)) as Hxb.
  pose proof (Z.div_mod (screen_height - 200) 2 ltac:(lia)) as Hy.
  pose proof (Z.mod_pos_bound (screen_height - 200) 2 ltac:(lia)) as Hyb.
  repeat split; lia.
Qed.

Lemma alert_geometry_centred_witness :
  (500 <= 1921)%Z /\ (200 <= 1080)%Z
  /\ alert_geometry 1921 1080 = (500, 200, 710, 440)%Z
  /\ (0 <= 710 /\ 710 + 500 <= 1921)%Z
  /\ (0 <= 440 /\ 440 + 200 <= 1080)%Z.
Proof.
  assert (Hw : (500 <= 1921)%Z) by lia.
  assert (Hh : (200 <= 1080)%Z) by lia.
  pose proof (alert_geometry_centred 1921 1080) as P.
  change (alert_geometry 1921 1080) with (500, 200, 710, 440)%Z in P.
  destruct P as (_ & _ & _ & _ & Px & Py).
  exact (conj Hw (conj Hh (conj eq_refl (conj (Px Hw) (Py Hh))))).
Defined.

(** ** The signature *)

Lemma check_posture_body_from (atan2 : Q -> Q -> Q)
      (landmarks : list landmark) :
  check_posture_body atan2 landmarks
  = (left_shoulder <- getitem landmarks 11 ;;
     right_shoulder <- getitem landmarks 12 ;;
     left_ear <- getitem landmarks 7 ;;
     right_ear <- getitem landmarks 8 ;;
     left_hip <- getitem landmarks 23 ;;
     right_hip <- getitem landmarks 24 ;;
     Returned (signature_from atan2 left_shoulder right_shoulder
                 left_ear right_ear left_hip right_hip)).
Proof. reflexivity. Qed.

Lemma getitem_short (landmarks : list landmark) (i : nat) :
  (List.length landmarks <= i)%nat -> getitem landmarks i = Raised IndexError.
Proof.
  intros H. unfold getitem.
  rewrite (proj2 (nth_error_None landmarks i) H). reflexivity.
Qed.

Lemma getitem_nth (landmarks : list landmark) (i : nat) (d : landmark) :
  (i < List.length landmarks)%nat ->
  getitem landmarks i = Returned (nth i landmarks d).
Proof.
  intros H. unfold getitem.
  rewrite (nth_error_nth' landmarks d H). reflexivity.
Qed.

(** On a list too short for the right hip the computation gives up. *)
Lemma check_posture_short (atan2 : Q -> Q -> Q) (landmarks : list landmark) :
  (List.length landmarks < 25)%nat -> check_posture atan2 landmarks = None.
Proof.
  intros Hlen. unfold check_posture. rewrite check_posture_body_from.
  destruct (getitem landmarks 11); [|reflexivity].
  destruct (getitem landmarks 12); [|reflexivity].
  destruct (getitem landmarks 7); [|reflexivity].
  destruct (getitem landmarks 8); [|reflexivity].
  destruct (getitem landmarks 23); [|reflexivity].
  rewrite getitem_short by lia. reflexivity.
Qed.

(** On a list of 25 landmarks or more it is the dict of the six. *)
Lemma check_posture_long (atan2 : Q -> Q -> Q) (landmarks : list landmark)
      (d : landmark) :
  (25 <= List.length landmarks)%nat ->
  check_posture atan2 landmarks
  = Some (signature_from atan2 (nth 11 landmarks d) (nth 12 landmarks d)
            (nth 7 landmarks d) (nth 8 landmarks d)
            (nth 23 landmarks d) (nth 24 landmarks d)).
Proof.
  intros Hlen. unfold check_posture. rewrite check_posture_body_from.
  rewrite !(getitem_nth landmarks _ d) by lia. reflexivity.
Qed.

(** X5.  The signature is read off six landmarks only, the ears 7 and 8,
    the shoulders 11 and 12 and the hips 23 and 24: two landmark lists that
    agree there, whatever their lengths and their other entries, get the
    same result from [check_posture]. *)
Theorem check_posture_six_landmarks (atan2 : Q -> Q -> Q)
        (landmarks1 landmarks2 : list landmark) :
  (forall i, In i [7; 8; 11; 12; 23; 24]%nat ->
             nth_error landmarks1 i = nth_error landmarks2 i) ->
  check_posture atan2 landmarks1 = check_posture atan2 landmarks2.
Proof.
  intros Hsame. unfold check_posture. rewrite !check_posture_body_from.
  unfold getitem.
  rewrite (Hsame 11%nat), (Hsame 12%nat), (Hsame 7%nat), (Hsame 8%nat),
    (Hsame 23%nat), (Hsame 24%nat) by (cbn; tauto).
  reflexivity.
Qed.

(** The upright pose and its first 25 landmarks with a stray one added. *)
Lemma check_posture_six_landmarks_witness :
  (forall i, In i [7; 8; 11; 12; 23; 24]%nat ->
             nth_error upright i
             = nth_error (firstn 25 upright ++ [Landmark 9 9]) i)
  /\ check_posture atan2_octant upright
     = check_posture atan2_octant (firstn 25 upright ++ [Landmark 9 9]).
Proof.
  assert (Hsame : forall i, In i [7; 8; 11; 12; 23; 24]%nat ->
                            nth_error upright i
                            = nth_error (firstn 25 upright ++ [Landmark 9 9])
                                i).
  { intros i Hi. cbn in Hi.
    repeat (destruct Hi as [<- | Hi]; [reflexivity|]). contradiction. }
  exact (conj Hsame
              (check_posture_six_landmarks atan2_octant _ _ Hsame)).
Defined.

Lemma Qplus_comm_eq (a b : Q) : a + b = b + a.
Proof.
  destruct a as [an ad], b as [bn bd]. unfold Qplus. cbn [Qnum Qden].
  f_equal; [ring | apply Pos.mul_comm].
Qed.

Lemma nth_relabelled (landmarks : list landmark) (i : nat) (d : landmark) :
  (25 <= List.length landmarks)%nat -> (i < 25)%nat ->
  nth i (relabelled landmarks) d
  = nth (match i with
         | 7 => 8 | 8 => 7 | 23 => 24 | 24 => 23 | _ => i
         end)%nat landmarks (Landmark 0 0).
Proof.
  intros Hlen Hi. unfold relabelled. apply nth_error_nth.
  rewrite nth_error_map.
  rewrite (nth_error_nth' (seq 0 (List.length landmarks)) 0%nat)
    by (rewrite length_seq; lia).
  rewrite seq_nth by lia. reflexivity.
Qed.

(** X6.  The signature does not depend on which ear, and which hip, the
    detector calls left and which right: trading landmarks 7 and 8, and 23
    and 24, gives the same result, the code using the midpoints only. *)
Theorem check_posture_relabelled (atan2 : Q -> Q -> Q)
        (landmarks : list landmark) :
  check_posture atan2 (relabelled landmarks) = check_posture atan2 landmarks.
Proof.
  assert (Hl : List.length (relabelled landmarks) = List.length landmarks)
    by (unfold relabelled; rewrite length_map, length_seq; reflexivity).
  destruct (Nat.lt_ge_cases (List.length landmarks) 25) as [Hshort | Hlong].
  - rewrite !check_posture_short by lia. reflexivity.
  - rewrite (check_posture_long atan2 (relabelled landmarks) (Landmark 0 0))
      by lia.
    rewrite (check_posture_long atan2 landmarks (Landmark 0 0)) by lia.
    rewrite !nth_relabelled by lia.
    unfold signature_from.
    rewrite (Qplus_comm_eq (x (nth 8 landmarks (Landmark 0 0)))),
      (Qplus_comm_eq (y (nth 8 landmarks (Landmark 0 0)))),
      (Qplus_comm_eq (x (nth 24 landmarks (Landmark 0 0)))),
      (Qplus_comm_eq (y (nth 24 landmarks (Landmark 0 0)))).
    reflexivity.
Qed.

Example relabelled_upright_differs :
  nth 7 (relabelled upright) (Landmark 0 0) = nth 8 upright (Landmark 0 0)
  /\ relabelled upright <> upright.
Proof. split; [reflexivity | vm_compute; discriminate]. Qed.

(** ** Angles *)

(** X7.  When [p1] and [p3] are the same point the angle is 0, whatever
    the vertex, the vertex itself included, and whatever [math.atan2]
    returns there. *)
Theorem calculate_angle_same_point (atan2 : Q -> Q -> Q) (p p2 : landmark) :
  calculate_angle atan2 p p2 p == 0.
Proof.
  unfold calculate_angle.
  set (a := atan2 (y p - y p2) (x p - x p2)).
  assert (E : Qabs ((a - a) * 180 / math_pi) == 0).
  { rewrite <- Qabs_wd with (x := 0); [reflexivity|].
    field. discriminate. }
  destruct (Qgtb _ 180) eqn:G.
  - apply Qgtb_true in G. rewrite E in G. discriminate.
  - exact E.
Qed.

Section SignatureFacts.

Variable atan2 : Q -> Q -> Q.
Hypothesis atan2_range : forall dy dx, Qabs (atan2 dy dx) <= math_pi.

Lemma calculate_angle_bounds (p1 p2 p3 : landmark) :
  0 <= calculate_angle atan2 p1 p2 p3 /\ calculate_angle atan2 p1 p2 p3 <= 180.
Proof.
  unfold calculate_angle.
  set (a3 := atan2 (y p3 - y p2) (x p3 - x p2)).
  set (a1 := atan2 (y p1 - y p2) (x p1 - x p2)).
  assert (H3 : Qabs a3 <= math_pi) by apply atan2_range.
  assert (H1 : Qabs a1 <= math_pi) by apply atan2_range.
  assert (Hb : Qabs ((a3 - a1) * 180 / math_pi) <= 2 * 180).
  { apply degrees_bound. apply Qabs_Qle_condition in H3, H1.
    apply Qabs_Qle_condition. lra. }
  pose proof (Qabs_nonneg ((a3 - a1) * 180 / math_pi)) as Hn.
  destruct (Qgtb _ 180) eqn:E.
  - apply Qgtb_true in E. lra.
  - apply Qgtb_false in E. lra.
Qed.

(** X8.  Every signature [check_posture] returns has its shoulder slope
    and its neck angle between 0 and 180 degrees, [math.atan2] returning
    values between minus [math.pi] and [math.pi]. *)
Theorem check_posture_angles_in_range (landmarks : list landmark)
        (sig : signature) :
  check_posture atan2 landmarks = Some sig ->
  (0 <= shoulder_slope sig /\ shoulder_slope sig <= 180)
  /\ (0 <= neck_angle sig /\ neck_angle sig <= 180).
Proof.
  intros Hsig.
  destruct (Nat.lt_ge_cases (List.length landmarks) 25) as [Hshort | Hlong].
  - rewrite check_posture_short in Hsig by lia. discriminate.
  - rewrite (check_posture_long atan2 landmarks (Landmark 0 0)) in Hsig
      by lia.
    injection Hsig as <-. unfold signature_from.
    cbn [shoulder_slope neck_angle]. split.
    + split; [apply Qabs_nonneg|].
      setoid_replace 180 with (1 * 180) at 2 by reflexivity.
      apply degrees_bound. rewrite Qmult_1_l. apply atan2_range.
    + apply calculate_angle_bounds.
Qed.

End SignatureFacts.

Lemma check_posture_angles_in_range_witness :
  (forall dy dx, Qabs (atan2_octant dy dx) <= math_pi)
  /\ (exists sig,
         check_posture atan2_octant slouched = Some sig
         /\ (0 <= shoulder_slope sig /\ shoulder_slope sig <= 180)
         /\ (0 <= neck_angle sig /\ neck_angle sig <= 180)).
Proof.
  split; [exact atan2_octant_range|].
  assert (Hsig : check_posture atan2_octant slouched
                 = Some (Signature (0 # 884279719003555)
                           (75664645868104190701212661564406131073640038400
                            # 560478858282253264453427122699304674619555840)
                           true))
    by (vm_compute; reflexivity).
  eexists. split; [exact Hsig|].
  exact (check_posture_angles_in_range atan2_octant atan2_octant_range
           slouched _ Hsig).
Defined.

(** ** More on one frame *)

Section MoreFrameFacts.

Variable atan2 : Q -> Q -> Q.

(** What one frame can do to the counter. *)
Lemma process_frame_counter (now : Q) (c : capture) (s : state) :
  let n' := bad_posture_counter (fst (process_frame atan2 now c s)) in
  n' = bad_posture_counter s
  \/ n' = (bad_posture_counter s + 1)%Z
  \/ n' = 0%Z.
Proof.
  destruct c as [| |[landmarks|]]; cbn; auto.
  destruct (check_posture atan2 landmarks) as [posture|]; cbn; auto.
  destruct s as [g n sens dur last m cal]. cbn.
  destruct cal, g as [good|], m; cbn; auto.
  all: destruct (is_bad_posture posture good sens); cbn; auto.
  all: destruct (n + 1 >? 5)%Z; cbn; auto.
  all: unfold show_alert; cbn;
    destruct (Qltb (now - last) (inject_Z dur)); cbn; auto.
Qed.

(** One frame opens one overlay at most. *)
Lemma process_frame_alerts_le_1 (now : Q) (c : capture) (s : state) :
  (alerts (snd (process_frame atan2 now c s)) <= 1)%nat.
Proof.
  destruct c as [| |[landmarks|]]; cbn; auto.
  destruct (check_posture atan2 landmarks) as [posture|]; cbn; auto.
  destruct s as [g n sens dur last m cal]. cbn.
  destruct cal, g as [good|], m; cbn; auto.
  all: destruct (is_bad_posture posture good sens); cbn; auto.
  all: destruct (n + 1 >? 5)%Z; cbn; auto.
  all: unfold show_alert; cbn;
    destruct (Qltb (now - last) (inject_Z dur)); cbn; auto.
Qed.

(** While the monitoring flag is down a frame evaluates nothing. *)
Lemma process_frame_not_monitoring (now : Q) (c : capture) (s : state) :
  monitoring s = false ->
  snd (process_frame atan2 now c s)
  = match c with
    | Frame None => [Status "👤 No person detected" "white"]
    | _ => []
    end
  /\ bad_posture_counter (fst (process_frame atan2 now c s))
     = bad_posture_counter s
  /\ last_alert_time (fst (process_frame atan2 now c s)) = last_alert_time s.
Proof.
  intros Hm.
  destruct c as [| |[landmarks|]]; cbn; auto.
  destruct (check_posture atan2 landmarks) as [posture|]; cbn; auto.
  destruct s as [g n sens dur last m cal]. cbn in *. subst m.
  destruct cal, g as [good|]; cbn; auto.
Qed.

(** While the calibrating flag is down a frame leaves the baseline. *)
Lemma process_frame_not_calibrating (now : Q) (c : capture) (s : state) :
  calibrating s = false ->
  good_posture (fst (process_frame atan2 now c s)) = good_posture s.
Proof.
  intros Hc.
  destruct c as [| |[landmarks|]]; cbn; auto.
  destruct (check_posture atan2 landmarks) as [posture|]; cbn; auto.
  destruct s as [g n sens dur last m cal]. cbn in *. subst cal. cbn.
  destruct m, g as [good|]; cbn; auto.
  destruct (is_bad_posture posture good sens); cbn; auto.
  destruct (n + 1 >? 5)%Z; cbn; auto.
  unfold show_alert; cbn.
  destruct (Qltb (now - last) (inject_Z dur)); cbn; auto.
Qed.

(** Without a baseline and outside a calibration a frame changes
    nothing. *)
Lemma process_frame_idle (now : Q) (c : capture) (s : state) :
  good_posture s = None -> calibrating s = false ->
  fst (process_frame atan2 now c s) = s
  /\ alerts (snd (process_frame atan2 now c s)) = 0%nat.
Proof.
  intros Hg Hc.
  destruct c as [| |[landmarks|]]; cbn; auto.
  destruct (check_posture atan2 landmarks) as [posture|]; cbn; auto.
  rewrite Hg, Hc. cbn. destruct (monitoring s); auto.
Qed.

End MoreFrameFacts.

(** ** More on runs *)

Lemma run_cons (atan2 : Q -> Q -> Q) (e : event) (es : list event)
      (s : state) :
  run atan2 (e :: es) s
  = (fst (run atan2 es (fst (step atan2 e s))),
     snd (step atan2 e s) ++ snd (run atan2 es (fst (step atan2 e s)))).
Proof.
  cbn [run]. destruct (step atan2 e s) as [s1 out1]. cbn [fst snd].
  destruct (run atan2 es s1). reflexivity.
Qed.

Lemma step_counter (atan2 : Q -> Q -> Q) (e : event) (s : state) :
  let n' := bad_posture_counter (fst (step atan2 e s)) in
  n' = bad_posture_counter s
  \/ n' = (bad_posture_counter s + 1)%Z
  \/ n' = 0%Z.
Proof.
  destruct e; cbn [step]; try (left; reflexivity).
  - left. unfold finish_calibration. destruct (truthy _); reflexivity.
  - apply process_frame_counter.
Qed.

Lemma run_counter_bounds (atan2 : Q -> Q -> Q) (es : list event) :
  forall s : state,
    (0 <= bad_posture_counter s)%Z ->
    (0 <= bad_posture_counter (fst (run atan2 es s))
     <= bad_posture_counter s + Z.of_nat (List.length es))%Z.
Proof.
  induction es as [|e es IH]; intros s Hs.
  - cbn. lia.
  - rewrite run_cons. cbn [fst List.length]. rewrite Nat2Z.inj_succ.
    pose proof (step_counter atan2 e s) as Hstep. cbn zeta in Hstep.
    specialize (IH (fst (step atan2 e s))). lia.
Qed.

(** X9.  Whatever calls reach the object from its initial state, in
    whatever order, the counter of bad frames is never negative and never
    exceeds the number of calls made. *)
Theorem counter_bounds (atan2 : Q -> Q -> Q) (es : list event) :
  (0 <= bad_posture_counter (fst (run atan2 es init))
   <= Z.of_nat (List.length es))%Z.
Proof.
  pose proof (run_counter_bounds atan2 es init) as H.
  change (bad_posture_counter init) with 0%Z in H. lia.
Qed.

(** X10.  While the monitoring flag is down, frames open no overlay and
    touch neither the counter nor the time of the last alert, however bad
    the postures in them; the only status they write is that of a frame
    without landmarks. *)
Theorem no_alert_while_not_monitoring (atan2 : Q -> Q -> Q)
        (frames : list (Q * capture)) (s : state) :
  monitoring s = false ->
  alerts (snd (run atan2 (ticks frames) s)) = 0%nat
  /\ Forall (fun st => st = ("👤 No person detected"%string, "white"%string))
            (statuses (snd (run atan2 (ticks frames) s)))
  /\ bad_posture_counter (fst (run atan2 (ticks frames) s))
     = bad_posture_counter s
  /\ last_alert_time (fst (run atan2 (ticks frames) s)) = last_alert_time s
  /\ monitoring (fst (run atan2 (ticks frames) s)) = false.
Proof.
  revert s. induction frames as [|[now c] frames IH]; intros s Hm.
  - cbn. repeat split; auto.
  - rewrite run_tick. cbn [fst snd].
    destruct (process_frame_not_monitoring atan2 now c s Hm)
      as (Hout & Hn & Hl).
    destruct (process_frame_keeps atan2 now c s) as (Hm' & _).
    cbn zeta in Hm'. rewrite Hm in Hm'.
    destruct (IH _ Hm') as (Ia & Is & In' & Il & Im).
    rewrite alerts_app, Ia, In', Il, Hn, Hl, Hout.
    unfold statuses. rewrite flat_map_app. fold (statuses (snd
      (run atan2 (ticks frames) (fst (process_frame atan2 now c s))))).
    repeat split; auto.
    + destruct c as [| |[l|]]; reflexivity.
    + apply Forall_app. split; [|exact Is].
      destruct c as [| |[l|]]; cbn; repeat constructor.
Qed.

(** The calibration has caught the slouched pose and the window is still
    open: slouched frames and frames without landmarks. *)
Lemma no_alert_while_not_monitoring_witness :
  monitoring (fst (run atan2_octant
                       [Calibrate; Tick 100 (Frame (Some upright))] init))
  = false
  /\ alerts (snd (run atan2_octant
                      (ticks (frames_of slouched 3001 40
                              ++ [(103, Frame None)]))
                      (fst (run atan2_octant
                                [Calibrate; Tick 100 (Frame (Some upright))]
                                init)))) = 0%nat.
Proof.
  assert (Hm : monitoring
                 (fst (run atan2_octant
                           [Calibrate; Tick 100 (Frame (Some upright))]
                           init)) = false) by (vm_compute; reflexivity).
  exact (conj Hm (proj1 (no_alert_while_not_monitoring atan2_octant
                           (frames_of slouched 3001 40
                            ++ [(103, Frame None)]) _ Hm))).
Defined.

Lemma run_idle (atan2 : Q -> Q -> Q) (es : list event) :
  forall s : state,
    ~ In Calibrate es ->
    good_posture s = None -> calibrating s = false ->
    monitoring s = false ->
    alerts (snd (run atan2 es s)) = 0%nat
    /\ good_posture (fst (run atan2 es s)) = None
    /\ calibrating (fst (run atan2 es s)) = false
    /\ monitoring (fst (run atan2 es s)) = false
    /\ bad_posture_counter (fst (run atan2 es s)) = bad_posture_counter s.
Proof.
  induction es as [|e es IH]; intros s Hno Hg Hc Hm.
  - cbn. auto.
  - rewrite run_cons. cbn [fst snd]. rewrite alerts_app.
    assert (Hno' : ~ In Calibrate es) by (intros H; apply Hno; right; exact H).
    assert (Hstep : fst (step atan2 e s) = s \/
                    (good_posture (fst (step atan2 e s)) = None
                     /\ calibrating (fst (step atan2 e s)) = false
                     /\ monitoring (fst (step atan2 e s)) = false
                     /\ bad_posture_counter (fst (step atan2 e s))
                        = bad_posture_counter s)).
    { destruct e; cbn [step fst].
      - exfalso. apply Hno. left. reflexivity.
      - right. unfold finish_calibration. cbn [good_posture set_calibrating].
        rewrite Hg. cbn. auto.
      - left. apply (process_frame_idle atan2 current_time input s Hg Hc).
      - right. cbn. auto.
      - right. cbn. auto.
      - right. cbn. auto. }
    assert (Hout : alerts (snd (step atan2 e s)) = 0%nat).
    { destruct e; cbn [step snd]; try reflexivity.
      - unfold finish_calibration. cbn [good_posture set_calibrating].
        rewrite Hg. reflexivity.
      - apply (process_frame_idle atan2 current_time input s Hg Hc). }
    rewrite Hout.
    destruct Hstep as [-> | (Hg' & Hc' & Hm' & Hn')].
    + apply IH; assumption.
    + rewrite <- Hn'. apply IH; assumption.
Qed.

(** X11.  Before the first calibration nothing is evaluated: whatever
    frames, slider moves, stray timer ends and closings reach the object
    from its initial state, no overlay opens, no baseline is set, the
    monitoring flag stays down and the counter stays at 0. *)
Theorem nothing_before_calibration (atan2 : Q -> Q -> Q) (es : list event) :
  ~ In Calibrate es ->
  alerts (snd (run atan2 es init)) = 0%nat
  /\ good_posture (fst (run atan2 es init)) = None
  /\ monitoring (fst (run atan2 es init)) = false
  /\ bad_posture_counter (fst (run atan2 es init)) = 0%Z.
Proof.
  intros Hno.
  destruct (run_idle atan2 es init Hno eq_refl eq_refl eq_refl)
    as (Ha & Hg & _ & Hm & Hn).
  auto.
Qed.

Lemma nothing_before_calibration_witness :
  ~ In Calibrate
       (ticks (frames_of slouched 3000 20)
        ++ [SetSensitivity 5; WindowElapsed; Tick 101 (Frame None)])
  /\ alerts (snd (run atan2_octant
                      (ticks (frames_of slouched 3000 20)
                       ++ [SetSensitivity 5; WindowElapsed;
                           Tick 101 (Frame None)])
                      init)) = 0%nat.
Proof.
  assert (Hno : ~ In Calibrate
                    (ticks (frames_of slouched 3000 20)
                     ++ [SetSensitivity 5; WindowElapsed;
                         Tick 101 (Frame None)])).
  { intros H. cbn in H.
    repeat (destruct H as [H | H]; [discriminate|]). exact H. }
  exact (conj Hno (proj1 (nothing_before_calibration atan2_octant _ Hno))).
Defined.

(** X12.  Frames whose clock readings all lie in a window shorter than
    [alert_duration] open one overlay at most, whatever the state they
    start from. *)
Theorem one_alert_per_window (atan2 : Q -> Q -> Q)
        (frames : list (Q * capture)) (start : Q) (s : state) :
  Forall (fun f => start <= fst f
                   /\ fst f < start + inject_Z (alert_duration s))
         frames ->
  (alerts (snd (run atan2 (ticks frames) s)) <= 1)%nat.
Proof.
  revert s. induction frames as [|[now c] frames IH]; intros s Hall.
  - cbn. lia.
  - inversion Hall as [|f fs [Hlo Hhi] Hrest]; subst. cbn [fst] in Hlo, Hhi.
    rewrite run_tick. cbn [fst snd]. rewrite alerts_app.
    destruct (process_frame_keeps atan2 now c s) as (_ & _ & _ & Hd & _).
    cbn zeta in Hd.
    destruct (Nat.eq_dec (alerts (snd (process_frame atan2 now c s))) 0)
      as [Hz | Hnz].
    + rewrite Hz. apply IH. rewrite Hd. exact Hrest.
    + pose proof (process_frame_alerts_le_1 atan2 now c s) as Hle.
      pose proof (process_frame_alert_time atan2 now c s Hnz) as Hlast.
      destruct (run_within_cooldown atan2 frames
                  (fst (process_frame atan2 now c s))) as [Hnone _].
      { rewrite Hlast, Hd. eapply Forall_impl; [|exact Hrest].
        intros f [Hf1 Hf2]. cbn beta in *. lra. }
      rewrite Hnone. lia.
Qed.

(** Fifty slouched frames from 3030/30 to 3079/30, all within the three
    seconds from 101. *)
Lemma one_alert_per_window_witness :
  Forall (fun f => 101 <= fst f
                   /\ fst f < 101 + inject_Z (alert_duration calibrated))
         (frames_of slouched 3030 50)
  /\ (alerts (snd (run atan2_octant (ticks (frames_of slouched 3030 50))
                       calibrated)) <= 1)%nat.
Proof.
  assert (Hall : Forall (fun f => 101 <= fst f
                                  /\ fst f < 101 + inject_Z
                                                     (alert_duration calibrated))
                        (frames_of slouched 3030 50)).
  { unfold frames_of. apply Forall_forall. intros f Hin.
    apply in_map_iff in Hin. destruct Hin as (k & <- & Hk).
    apply in_seq in Hk. cbn [fst].
    change (alert_duration calibrated) with 3%Z.
    unfold Qle, Qlt, Qplus, inject_Z. cbn [Qnum Qden]. lia. }
  exact (conj Hall (one_alert_per_window atan2_octant _ 101 calibrated Hall)).
Defined.

(** ** Bad frames *)

(** X13.  The red status does not wait for the cooldown: a bad frame that
    takes the counter above 5 writes [Poor posture detected] whether the
    overlay opens or not, and a bad frame that leaves the counter at 5 or
    less writes nothing at all. *)
Theorem poor_posture_status (atan2 : Q -> Q -> Q) (now : Q) (c : capture)
        (s : state) (good : signature) :
  monitoring s = true -> good_posture s = Some good ->
  classified atan2 good (sensitivity s) true c ->
  ((5 <= bad_posture_counter s)%Z ->
   statuses (snd (process_frame atan2 now c s))
   = [("⚠️ Poor posture detected!"%string, "red"%string)])
  /\ ((bad_posture_counter s < 5)%Z ->
      snd (process_frame atan2 now c s) = []).
Proof.
  intros Hm Hg Hc. rewrite (process_frame_bad atan2 now c s good Hm Hg Hc).
  split; intros Hn.
  - replace (bad_posture_counter s + 1 >? 5)%Z with true
      by (symmetry; rewrite Z.gtb_ltb; apply Z.ltb_lt; lia).
    unfold show_alert. destruct (Qltb _ _); reflexivity.
  - replace (bad_posture_counter s + 1 >? 5)%Z with false
      by (symmetry; rewrite Z.gtb_ltb; apply Z.ltb_ge; lia).
    reflexivity.
Qed.

(** At 6 bad frames and within the cooldown of an alert at 100: the red
    status and no overlay.  At 2 bad frames: nothing. *)
Lemma poor_posture_status_witness :
  (statuses (snd (process_frame atan2_octant 101 (Frame (Some slouched))
                    (set_last_alert_time 100
                       (set_bad_posture_counter 6 calibrated))))
   = [("⚠️ Poor posture detected!"%string, "red"%string)]
   /\ alerts (snd (process_frame atan2_octant 101 (Frame (Some slouched))
                     (set_last_alert_time 100
                        (set_bad_posture_counter 6 calibrated)))) = 0%nat)
  /\ snd (process_frame atan2_octant 101 (Frame (Some slouched))
            (set_bad_posture_counter 2 calibrated)) = [].
Proof.
  assert (Hg : good_posture calibrated
               = Some (Signature (0 # 884279719003555)
                         (50443097245402793800808441042937420715760025600
                          # 280239429141126632226713561349652337309777920)
                         false)) by (vm_compute; reflexivity).
  split; [split|].
  - apply (proj1 (poor_posture_status atan2_octant 101 (Frame (Some slouched))
                    (set_last_alert_time 100
                       (set_bad_posture_counter 6 calibrated))
                    _ eq_refl Hg classified_slouched)).
    cbn. lia.
  - vm_compute. reflexivity.
  - apply (proj2 (poor_posture_status atan2_octant 101 (Frame (Some slouched))
                    (set_bad_posture_counter 2 calibrated)
                    _ eq_refl Hg classified_slouched)).
    cbn. lia.
Defined.

Lemma process_frame_bad_keeps (atan2 : Q -> Q -> Q) (now : Q) (c : capture)
      (s : state) (good : signature) :
  monitoring s = true -> good_posture s = Some good ->
  classified atan2 good (sensitivity s) true c ->
  bad_posture_counter (fst (process_frame atan2 now c s))
  = (bad_posture_counter s + 1)%Z
  /\ monitoring (fst (process_frame atan2 now c s)) = true
  /\ good_posture (fst (process_frame atan2 now c s)) = Some good
  /\ sensitivity (fst (process_frame atan2 now c s)) = sensitivity s.
Proof.
  intros Hm Hg Hc.
  destruct (process_frame_keeps atan2 now c s) as (Km & _ & Ks & _ & Kg).
  cbn zeta in *. rewrite Km, Ks, (Kg good Hg), Hm.
  repeat split.
  rewrite (process_frame_bad atan2 now c s good Hm Hg Hc).
  destruct (bad_posture_counter s + 1 >? 5)%Z; [|reflexivity].
  unfold show_alert. cbn [fst]. destruct (Qltb _ _); reflexivity.
Qed.

(** X14.  The counter counts every bad frame of a run, above the
    threshold as below it and during a cooldown as outside one: after [n]
    consecutive bad frames it is [n] more than before. *)
Theorem bad_frames_counted (atan2 : Q -> Q -> Q)
        (frames : list (Q * capture)) (s : state) (good : signature) :
  monitoring s = true -> good_posture s = Some good ->
  Forall (fun f => classified atan2 good (sensitivity s) true (snd f))
         frames ->
  bad_posture_counter (fst (run atan2 (ticks frames) s))
  = (bad_posture_counter s + Z.of_nat (List.length frames))%Z.
Proof.
  revert s. induction frames as [|[now c] frames IH]; intros s Hm Hg Hall.
  - cbn. lia.
  - inversion Hall as [|f fs Hc Hrest]; subst. cbn [snd] in Hc.
    rewrite run_tick. cbn [fst List.length]. rewrite Nat2Z.inj_succ.
    destruct (process_frame_bad_keeps atan2 now c s good Hm Hg Hc)
      as (Kn & Km & Kg & Ks).
    rewrite IH; [lia | exact Km | exact Kg | rewrite Ks; exact Hrest].
Qed.

Lemma bad_frames_counted_witness :
  bad_posture_counter
    (fst (run atan2_octant (ticks (frames_of slouched 3030 3)) calibrated))
  = (bad_posture_counter calibrated + 3)%Z.
Proof.
  assert (Hg : good_posture calibrated
               = Some (Signature (0 # 884279719003555)
                         (50443097245402793800808441042937420715760025600
                          # 280239429141126632226713561349652337309777920)
                         false)) by (vm_compute; reflexivity).
  apply (bad_frames_counted atan2_octant (frames_of slouched 3030 3)
           calibrated _ eq_refl Hg).
  repeat constructor; exact classified_slouched.
Defined.

(** X15.  An overlay opens only on a frame classified bad while
    monitoring against a baseline, and only when that frame takes the
    counter above 5. *)
Theorem alert_only_above_threshold (atan2 : Q -> Q -> Q) (now : Q)
        (c : capture) (s : state) :
  alerts (snd (process_frame atan2 now c s)) <> 0%nat ->
  monitoring s = true
  /\ (exists good,
         good_posture s = Some good
         /\ classified atan2 good (sensitivity s) true c)
  /\ bad_posture_counter (fst (process_frame atan2 now c s))
     = (bad_posture_counter s + 1)%Z
  /\ (5 < bad_posture_counter (fst (process_frame atan2 now c s)))%Z
  /\ inject_Z (alert_duration s) <= now - last_alert_time s.
Proof.
  destruct c as [| |[landmarks|]]; cbn; try congruence.
  unfold classified. cbn [signature_of].
  destruct (check_posture atan2 landmarks) as [posture|]; [|cbn; congruence].
  destruct s as [g n sens dur last m cal]. cbn.
  destruct cal, g as [good|], m; cbn; try congruence.
  all: destruct (is_bad_posture posture good sens) eqn:Hbad; cbn;
    try congruence.
  all: destruct (n + 1 >? 5)%Z eqn:Hn; cbn; try congruence.
  all: unfold show_alert; cbn;
    destruct (Qltb (now - last) (inject_Z dur)) eqn:Hq; cbn; try congruence.
  all: intros _; apply Qltb_false in Hq; rewrite Z.gtb_ltb in Hn;
    apply Z.ltb_lt in Hn.
  all: repeat split; eauto.
Qed.

Lemma alert_only_above_threshold_witness :
  alerts (snd (process_frame atan2_octant 101 (Frame (Some slouched))
                 (set_bad_posture_counter 5 calibrated))) <> 0%nat
  /\ (5 < bad_posture_counter
            (fst (process_frame atan2_octant 101 (Frame (Some slouched))
                    (set_bad_posture_counter 5 calibrated))))%Z.
Proof.
  assert (Hfired : alerts (snd (process_frame atan2_octant 101
                                  (Frame (Some slouched))
                                  (set_bad_posture_counter 5 calibrated)))
                   <> 0%nat) by (vm_compute; discriminate).
  destruct (alert_only_above_threshold atan2_octant 101
              (Frame (Some slouched))
              (set_bad_posture_counter 5 calibrated) Hfired)
    as (_ & _ & _ & Hn & _).
  exact (conj Hfired Hn).
Defined.

(** ** Calibration and settings *)

(** X16.  A recalibration while monitoring resets neither the counter nor
    the time of the last alert.  The first frame with a signature becomes
    the baseline, the counter, the time of the last alert and the
    monitoring flag being what they were; so with the counter at 5 or more
    the next frame that is bad against the new baseline opens the overlay
    at once, no cooldown being active. *)
Theorem recalibration_keeps_counter (atan2 : Q -> Q -> Q) (s : state)
        (t1 now : Q) (c1 c2 : capture) (sig : signature) :
  monitoring s = true ->
  signature_of atan2 c1 = Some sig ->
  (good_posture (fst (run atan2 [Calibrate; Tick t1 c1] s)) = Some sig
   /\ bad_posture_counter (fst (run atan2 [Calibrate; Tick t1 c1] s))
      = bad_posture_counter s
   /\ last_alert_time (fst (run atan2 [Calibrate; Tick t1 c1] s))
      = last_alert_time s
   /\ monitoring (fst (run atan2 [Calibrate; Tick t1 c1] s)) = true)
  /\ ((5 <= bad_posture_counter s)%Z ->
      classified atan2 sig (sensitivity s) true c2 ->
      inject_Z (alert_duration s) <= now - last_alert_time s ->
      alerts (snd (process_frame atan2 now c2
                     (fst (run atan2 [Calibrate; Tick t1 c1] s)))) = 1%nat).
Proof.
  intros Hm Hsig.
  assert (Hrun : fst (run atan2 [Calibrate; Tick t1 c1] s)
                 = set_good_posture (Some sig)
                     (set_good_posture None (set_calibrating true s))).
  { rewrite !run_cons. cbn [run fst step calibrate_posture].
    rewrite (process_frame_calibrating atan2 t1 c1 _ sig); auto. }
  rewrite Hrun. split.
  - repeat split. exact Hm.
  - intros Hn Hc Hcool.
    rewrite (process_frame_bad atan2 now c2 _ sig); auto.
    cbn [bad_posture_counter set_good_posture set_calibrating].
    replace (bad_posture_counter s + 1 >? 5)%Z with true
      by (symmetry; rewrite Z.gtb_ltb; apply Z.ltb_lt; lia).
    unfold show_alert.
    cbn [last_alert_time alert_duration set_bad_posture_counter
         set_good_posture set_calibrating good_posture bad_posture_counter
         sensitivity monitoring calibrating].
    apply Qltb_false in Hcool. rewrite Hcool. reflexivity.
Qed.

(** Monitoring the upright pose with the counter at 7: a recalibration
    catches the upright pose again, and the first slouched frame opens the
    overlay. *)
Lemma recalibration_keeps_counter_witness :
  bad_posture_counter
    (fst (run atan2_octant [Calibrate; Tick 200 (Frame (Some upright))]
              (set_bad_posture_counter 7 calibrated))) = 7%Z
  /\ alerts (snd (process_frame atan2_octant 201 (Frame (Some slouched))
                    (fst (run atan2_octant
                              [Calibrate; Tick 200 (Frame (Some upright))]
                              (set_bad_posture_counter 7 calibrated)))))
     = 1%nat.
Proof.
  assert (Hsig : signature_of atan2_octant (Frame (Some upright))
                 = Some (Signature (0 # 884279719003555)
                         (50443097245402793800808441042937420715760025600
                          # 280239429141126632226713561349652337309777920)
                         false)) by (vm_compute; reflexivity).
  destruct (recalibration_keeps_counter atan2_octant
              (set_bad_posture_counter 7 calibrated) 200 201
              (Frame (Some upright)) (Frame (Some slouched)) _
              eq_refl Hsig) as ((_ & Hn & _) & Hfire).
  split; [exact Hn|].
  apply Hfire.
  - cbn. lia.
  - exact classified_slouched.
  - vm_compute. discriminate.
Defined.

Lemma int_small (value : Q) : -1 < value -> value < 1 -> int value = 0%Z.
Proof.
  destruct value as [n d]. unfold int, Qlt. cbn [Qnum Qden].
  intros Hlo Hhi. rewrite Z.mul_1_r in Hhi.
  destruct (Z.le_gt_cases 0 n) as [Hn | Hn].
  - apply Z.quot_small. lia.
  - rewrite <- (Z.opp_involutive n), Z.quot_opp_l by discriminate.
    rewrite Z.quot_small by lia. reflexivity.
Qed.

(** X17.  A duration written below 1 second is stored as 0 and switches
    the cooldown off: [show_alert] then opens the overlay on every call
    whose clock reading is not before the last alert. *)
Theorem duration_below_one_no_cooldown (value now : Q) (s : state) :
  -1 < value -> value < 1 ->
  alert_duration (update_duration value s) = 0%Z
  /\ (last_alert_time s <= now ->
      show_alert now (update_duration value s)
      = (set_last_alert_time now (update_duration value s), [AlertOverlay])).
Proof.
  intros Hlo Hhi.
  assert (Hd : alert_duration (update_duration value s) = 0%Z)
    by (cbn; apply int_small; assumption).
  split; [exact Hd|].
  intros Hnow. unfold show_alert. rewrite Hd.
  replace (Qltb (now - last_alert_time (update_duration value s))
             (inject_Z 0)) with false; [reflexivity|].
  symmetry. apply Qltb_false. cbn [last_alert_time update_duration
    set_alert_duration]. change (inject_Z 0) with 0. lra.
Qed.

Lemma duration_below_one_no_cooldown_witness :
  (-1 < 9 # 10 /\ 9 # 10 < 1)
  /\ alert_duration (update_duration (9 # 10) calibrated) = 0%Z
  /\ (last_alert_time calibrated <= 101
      /\ snd (show_alert 101 (update_duration (9 # 10) calibrated))
         = [AlertOverlay]).
Proof.
  assert (Hlo : -1 < 9 # 10) by reflexivity.
  assert (Hhi : 9 # 10 < 1) by reflexivity.
  assert (Hnow : last_alert_time calibrated <= 101)
    by (vm_compute; discriminate).
  destruct (duration_below_one_no_cooldown (9 # 10) 101 calibrated Hlo Hhi)
    as [Hd Hfire].
  split; [exact (conj Hlo Hhi)|]. split; [exact Hd|].
  split; [exact Hnow|]. rewrite (Hfire Hnow). reflexivity.
Defined.

Lemma run_not_calibrating (atan2 : Q -> Q -> Q)
      (frames : list (Q * capture)) :
  forall s : state,
    calibrating s = false ->
    good_posture (fst (run atan2 (ticks frames) s)) = good_posture s
    /\ calibrating (fst (run atan2 (ticks frames) s)) = false
    /\ monitoring (fst (run atan2 (ticks frames) s)) = monitoring s.
Proof.
  induction frames as [|[now c] frames IH]; intros s Hc.
  - cbn. auto.
  - rewrite run_tick. cbn [fst].
    destruct (process_frame_keeps atan2 now c s) as (Km & Kc & _).
    cbn zeta in Km, Kc. rewrite Hc in Kc.
    destruct (IH _ Kc) as (Ig & Ic & Im). rewrite Ig, Ic, Im, Km.
    repeat split.
    apply process_frame_not_calibrating. exact Hc.
Qed.

(** X18.  Outside a calibration frames never change the baseline: with
    the calibrating flag down, whatever frames come, the baseline after
    them is the baseline before them, set or not. *)
Theorem baseline_fixed_outside_calibration (atan2 : Q -> Q -> Q)
        (frames : list (Q * capture)) (s : state) :
  calibrating s = false ->
  good_posture (fst (run atan2 (ticks frames) s)) = good_posture s
  /\ calibrating (fst (run atan2 (ticks frames) s)) = false.
Proof.
  intros Hc.
  destruct (run_not_calibrating atan2 frames s Hc) as (Hg & Hc' & _).
  split; assumption.
Qed.

(** After a window that ended without a baseline, upright frames do not
    become one. *)
Lemma baseline_fixed_outside_calibration_witness :
  calibrating (fst (run atan2_octant [Calibrate; WindowElapsed] init)) = false
  /\ good_posture
       (fst (run atan2_octant (ticks (frames_of upright 3000 10))
                 (fst (run atan2_octant [Calibrate; WindowElapsed] init))))
     = None.
Proof.
  assert (Hc : calibrating
                 (fst (run atan2_octant [Calibrate; WindowElapsed] init))
               = false) by reflexivity.
  exact (conj Hc (proj1 (baseline_fixed_outside_calibration atan2_octant
                           (frames_of upright 3000 10) _ Hc))).
Defined.

Lemma step_settings (atan2 : Q -> Q -> Q) (e : event) (s : state) :
  ((forall value, e <> SetSensitivity value) ->
   sensitivity (fst (step atan2 e s)) = sensitivity s)
  /\ ((forall value, e <> SetDuration value) ->
      alert_duration (fst (step atan2 e s)) = alert_duration s).
Proof.
  destruct e; cbn [step fst]; split; intros Hne; try reflexivity.
  - unfold finish_calibration. destruct (truthy _); reflexivity.
  - unfold finish_calibration. destruct (truthy _); reflexivity.
  - apply (process_frame_keeps atan2 current_time input s).
  - apply (process_frame_keeps atan2 current_time input s).
  - exfalso. exact (Hne value eq_refl).
  - exfalso. exact (Hne value eq_refl).
Qed.

(** X19.  The settings change through their own setters only: a run
    without a sensitivity write ends with the sensitivity it started with,
    and a run without a duration write with the duration it started with,
    calibrations, frames, alerts and closing included. *)
Theorem settings_changed_by_setters_only (atan2 : Q -> Q -> Q)
        (es : list event) (s : state) :
  ((forall value, ~ In (SetSensitivity value) es) ->
   sensitivity (fst (run atan2 es s)) = sensitivity s)
  /\ ((forall value, ~ In (SetDuration value) es) ->
      alert_duration (fst (run atan2 es s)) = alert_duration s).
Proof.
  revert s. induction es as [|e es IH]; intros s.
  - cbn. auto.
  - rewrite run_cons. cbn [fst].
    destruct (IH (fst (step atan2 e s))) as [I1 I2].
    destruct (step_settings atan2 e s) as [S1 S2].
    split; intros Hno.
    + rewrite I1 by (intros v H; apply (Hno v); right; exact H).
      apply S1. intros v ->. apply (Hno v). left. reflexivity.
    + rewrite I2 by (intros v H; apply (Hno v); right; exact H).
      apply S2. intros v ->. apply (Hno v). left. reflexivity.
Qed.

Lemma settings_changed_by_setters_only_witness :
  (forall value,
      ~ In (SetSensitivity value)
           [SetDuration 5; Calibrate; Tick 100 (Frame (Some upright));
            WindowElapsed; Tick 101 (Frame (Some slouched)); Closing])
  /\ sensitivity
       (fst (run atan2_octant
                 [SetDuration 5; Calibrate; Tick 100 (Frame (Some upright));
                  WindowElapsed; Tick 101 (Frame (Some slouched)); Closing]
                 init)) = 8%Z.
Proof.
  assert (Hno : forall value,
             ~ In (SetSensitivity value)
                  [SetDuration 5; Calibrate;
                   Tick 100 (Frame (Some upright)); WindowElapsed;
                   Tick 101 (Frame (Some slouched)); Closing]).
  { intros v H. cbn in H.
    repeat (destruct H as [H | H]; [discriminate|]). exact H. }
  exact (conj Hno (proj1 (settings_changed_by_setters_only atan2_octant
                            _ init) Hno)).
Defined.

(** X20.  The timer of a calibration ends whatever calibration is in
    progress when it comes.  When a second calibration is started before
    the timer of the first has come and no baseline is caught before it
    comes, that timer closes the second window: the frames that follow set
    no baseline, and the second timer finds none and leaves the monitoring
    flag as it was. *)
Theorem early_timer_ends_later_calibration (atan2 : Q -> Q -> Q)
        (before after : list (Q * capture)) (s : state) :
  Forall (fun f => signature_of atan2 (snd f) = None) before ->
  let s' :=
    fst (run atan2
             ([Calibrate; Calibrate] ++ ticks before ++ [WindowElapsed]
              ++ ticks after ++ [WindowElapsed]) s) in
  good_posture s' = None
  /\ calibrating s' = false
  /\ monitoring s' = monitoring s.
Proof.
  intros Hbefore. cbn zeta.
  rewrite run_app. cbn [fst].
  set (s0 := fst (run atan2 [Calibrate; Calibrate] s)).
  assert (H0 : good_posture s0 = None /\ monitoring s0 = monitoring s)
    by (split; reflexivity).
  rewrite run_app. cbn [fst].
  rewrite (run_no_signature atan2 before s0 Hbefore).
  cbn [app]. rewrite run_cons. cbn [fst step].
  set (s1 := fst (finish_calibration s0)).
  assert (H1 : good_posture s1 = None /\ calibrating s1 = false
               /\ monitoring s1 = monitoring s)
    by (repeat split; reflexivity).
  destruct H1 as (G1 & C1 & M1).
  rewrite run_app. cbn [fst].
  destruct (run_not_calibrating atan2 after s1 C1) as (G2 & C2 & M2).
  set (s2 := fst (run atan2 (ticks after) s1)) in *.
  rewrite run_cons. cbn [fst step run].
  unfold finish_calibration. cbn [good_posture set_calibrating].
  rewrite G2, G1. cbn [truthy fst good_posture calibrating monitoring
                       set_calibrating].
  rewrite G2, G1, M2, M1. repeat split.
Qed.

(** From the initial state: two calibrations, a frame without landmarks,
    the first timer, then upright frames and the second timer. *)
Lemma early_timer_ends_later_calibration_witness :
  Forall (fun f => signature_of atan2_octant (snd f) = None)
         [(100, Frame None)]
  /\ good_posture
       (fst (run atan2_octant
                 ([Calibrate; Calibrate] ++ ticks [(100, Frame None)]
                  ++ [WindowElapsed] ++ ticks (frames_of upright 3010 5)
                  ++ [WindowElapsed]) init)) = None
  /\ monitoring
       (fst (run atan2_octant
                 ([Calibrate; Calibrate] ++ ticks [(100, Frame None)]
                  ++ [WindowElapsed] ++ ticks (frames_of upright 3010 5)
                  ++ [WindowElapsed]) init)) = false.
Proof.
  assert (Hbefore : Forall (fun f => signature_of atan2_octant (snd f) = None)
                           [(100, Frame None)]) by (repeat constructor).
  destruct (early_timer_ends_later_calibration atan2_octant
              [(100, Frame None)] (frames_of upright 3010 5) init Hbefore)
    as (Hg & _ & Hm).
  exact (conj Hbefore (conj Hg Hm)).
Defined.
